(** * FootprintService (trailpack-mongoose): a verification development

    The service of [api/services/FootprintService.js] maps the abstract
    footprint operations (create, find, update, destroy and their four
    association variants) to calls on Mongoose models.  Every operation
    returns a promise; a promise chain is embedded here as a computation in
    a small state-and-error monad over a world made of the document store
    and the log of the calls the service issued to it. *)

From Stdlib Require Import ZArith.
From stdpp Require Import base option list strings pretty gmap.

Local Open Scope string_scope.
Local Open Scope Z_scope.
Local Open Scope list_scope.

(** ** JavaScript values *)

(** The values the service handles: ids, filters, documents, arrays of ids.
    A plain object is its list of own properties in insertion order. *)
#[local] Set Warnings "-register-all".
Inductive Value : Type :=
| VUndefined
| VNull
| VBool (b : bool)
| VNum (n : Z)
| VStr (s : string)
| VArr (xs : list Value)
| VObj (fields : list (string * Value)).

(** Induction principle that reaches the values nested in arrays and
    objects. *)
Section ValueInd.
Variable P : Value → Prop.
Hypothesis Hundef : P VUndefined.
Hypothesis Hnull : P VNull.
Hypothesis Hbool : ∀ b, P (VBool b).
Hypothesis Hnum : ∀ n, P (VNum n).
Hypothesis Hstr : ∀ s, P (VStr s).
Hypothesis Harr : ∀ xs, Forall P xs → P (VArr xs).
Hypothesis Hobj : ∀ fs, Forall (λ kv, P kv.2) fs → P (VObj fs).

Fixpoint Value_nested_ind (v : Value) : P v :=
    match v with
    | VUndefined => Hundef
    | VNull => Hnull
    | VBool b => Hbool b
    | VNum n => Hnum n
    | VStr s => Hstr s
    | VArr xs =>
        Harr xs ((fix go (l : list Value) : Forall P l :=
                    match l with
                    | [] => Forall_nil_2 P
                    | x :: l' => Forall_cons_2 P x l' (Value_nested_ind x) (go l')
                    end) xs)
    | VObj fs =>
        Hobj fs ((fix go (l : list (string * Value)) : Forall (λ kv, P kv.2) l :=
                    match l with
                    | [] => Forall_nil_2 _
                    | kv :: l' =>
                        Forall_cons_2 (λ kv, P kv.2) kv l' (Value_nested_ind kv.2) (go l')
                    end) fs)
    end.
End ValueInd.

(** Structural equality of values.  Ids are compared by value: the store
    modelled below keeps primitive ids (numbers, strings). *)
Fixpoint Value_eqb (a b : Value) {struct a} : bool :=
  match a, b with
  | VUndefined, VUndefined => true
  | VNull, VNull => true
  | VBool x, VBool y => bool_decide (x = y)
  | VNum x, VNum y => bool_decide (x = y)
  | VStr x, VStr y => bool_decide (x = y)
  | VArr xs, VArr ys =>
      (fix go (l1 l2 : list Value) {struct l1} : bool :=
         match l1, l2 with
         | [], [] => true
         | x :: l1', y :: l2' => Value_eqb x y && go l1' l2'
         | _, _ => false
         end) xs ys
  | VObj fs, VObj gs =>
      (fix go (l1 l2 : list (string * Value)) {struct l1} : bool :=
         match l1, l2 with
         | [], [] => true
         | (k, x) :: l1', (k', y) :: l2' =>
             bool_decide (k = k') && Value_eqb x y && go l1' l2'
         | _, _ => false
         end) fs gs
  | _, _ => false
  end.

Lemma Value_eqb_spec (a b : Value) : Value_eqb a b = true ↔ a = b.
Proof.
  revert b. induction a as [| | x | x | x | xs IH | fs IH] using Value_nested_ind;
    intros [| | y | y | y | ys | gs]; simpl;
    try (split; [intros ?; discriminate | intros ?; discriminate]);
    try (split; reflexivity);
    try (rewrite bool_decide_eq_true; split; [intros ->; reflexivity | intros [= ->]; reflexivity]).
  - revert ys. induction IH as [| x xs Hx _ IHxs]; intros [| y ys]; simpl;
      try (split; [reflexivity || discriminate | reflexivity || discriminate]).
    rewrite andb_true_iff, Hx.
    specialize (IHxs ys). split.
    + intros [-> H]. apply IHxs in H. congruence.
    + intros [= -> ->]. split; [reflexivity | apply IHxs; reflexivity].
  - revert gs. induction IH as [| [k x] fs Hx _ IHfs]; intros [| [k' y] gs]; simpl;
      try (split; [reflexivity || discriminate | reflexivity || discriminate]).
    simpl in Hx. rewrite !andb_true_iff, bool_decide_eq_true, Hx.
    specialize (IHfs gs). split.
    + intros [[-> ->] H]. apply IHfs in H. congruence.
    + intros [= -> -> ->]. split; [split; reflexivity | apply IHfs; reflexivity].
Qed.

Lemma Value_eqb_false (a b : Value) : Value_eqb a b = false ↔ a ≠ b.
Proof.
  rewrite <- Value_eqb_spec. destruct (Value_eqb a b); split; intros; congruence.
Qed.

#[global] Instance Value_eq_dec : EqDecision Value.
Proof.
  intros a b. destruct (Value_eqb a b) eqn:E.
  - left. apply Value_eqb_spec, E.
  - right. apply Value_eqb_false, E.
Defined.

(** ** The JavaScript and lodash primitives the service uses *)

(** [!v] is [negb (truthy v)]: undefined, null, false, 0 and the empty
    string are falsy; every array and every object is truthy, the empty
    array too. *)
Definition truthy (v : Value) : bool :=
  match v with
  | VUndefined | VNull => false
  | VBool b => b
  | VNum n => negb (n =? 0)
  | VStr s => negb (bool_decide (s = ""))
  | VArr _ | VObj _ => true
  end.

(** [_.isPlainObject] and [_.isArray]. *)
Definition isPlainObject (v : Value) : bool :=
  match v with VObj _ => true | _ => false end.

Definition isArray (v : Value) : bool :=
  match v with VArr _ => true | _ => false end.

Fixpoint lookup_field (k : string) (fs : list (string * Value)) : option Value :=
  match fs with
  | [] => None
  | (k', x) :: fs' => if bool_decide (k = k') then Some x else lookup_field k fs'
  end.

(** [o[k] = x] on the property list of an object: an existing property is
    overwritten in place, a new one goes last. *)
Fixpoint assign (k : string) (x : Value) (fs : list (string * Value))
  : list (string * Value) :=
  match fs with
  | [] => [(k, x)]
  | (k', y) :: fs' =>
      if bool_decide (k = k') then (k, x) :: fs' else (k', y) :: assign k x fs'
  end.

(** [v[k]] for a property name [k]; a value that is not an object has no
    such property. *)
Definition getField (v : Value) (k : string) : Value :=
  match v with
  | VObj fs => default VUndefined (lookup_field k fs)
  | _ => VUndefined
  end.

(** [v[k] = x]. *)
Definition setField (v : Value) (k : string) (x : Value) : Value :=
  match v with
  | VObj fs => VObj (assign k x fs)
  | _ => v
  end.

(** The enumerable properties [_.extend] copies from a source: the
    properties of an object, the elements of an array and the characters
    of a string under their indices, nothing for any other value. *)
Definition enumerable (src : Value) : list (string * Value) :=
  match src with
  | VObj fs => fs
  | VArr xs => imap (λ i x, (pretty i, x)) xs
  | VStr str => imap (λ i a, (pretty i, VStr (String a ""))) (String.list_ascii_of_string str)
  | _ => []
  end.

(** [_.extend(dst, src)]: every property of [src] is assigned to [dst],
    so [src] wins on a key both have. *)
Definition extend (dst src : Value) : Value :=
  foldl (λ acc kv, setField acc kv.1 kv.2) dst (enumerable src).

(** The values that are no object: undefined, null, booleans, numbers
    and strings. *)
Definition primitive (v : Value) : bool :=
  match v with
  | VArr _ | VObj _ => false
  | _ => true
  end.

(** SameValueZero, between a value held by one document and a value held
    by another: primitives are compared by value; an object (an array,
    an ObjectId) is the same as itself only, never as the object of
    another document. *)
Definition sameValueZero (a b : Value) : bool :=
  primitive a && bool_decide (a = b).

(** [_.difference(array, values)]: the elements of [array] that are the
    same as no element of [values]. *)
Definition difference (array values : list Value) : list Value :=
  filter (λ x, ¬ Is_true (existsb (sameValueZero x) values)) array.

(** ** Models, schemas and the service object *)

(** A path of a Mongoose schema: [instance] is ['Array'] for an array
    path, [options_ref] is [options.ref] ([VUndefined] when the path
    declares none). *)
Record SchemaPath := {
  instance : string;
  options_ref : Value
}.

(** A registered Mongoose model: the collection its calls go to and
    [schema.paths].  Every handle is an object with a schema, so the
    [_.isObject] and [_.has(model, 'schema.paths')] guards of
    [_getReferenceDefinition] hold of it. *)
Record ModelHandle := {
  collection : string;
  schema_paths : gmap string SchemaPath
}.

(** The options argument: [findOne] holds when [options.findOne === true]. *)
Record Options := {
  findOne : bool;
  defaultLimit : option Z
}.

(** The names every plain object inherits from [Object.prototype]. *)
Definition is_inherited (name : string) : bool :=
  bool_decide (name ∈ ["constructor"; "__defineGetter__"; "__defineSetter__";
                       "hasOwnProperty"; "__lookupGetter__"; "__lookupSetter__";
                       "isPrototypeOf"; "propertyIsEnumerable"; "toString"; "valueOf";
                       "__proto__"; "toLocaleString"]).

(** What reading [orm[name]] yields when it is not undefined: a model
    registered under the name, or, for an inherited name, the value the
    registry (a plain object) inherits: a function, or [Object.prototype]
    itself; truthy, and no model. *)
Inductive OrmValue : Type :=
| Registered (m : ModelHandle)
| Inherited (name : string).
Coercion Registered : ModelHandle >-> OrmValue.
#[local] Arguments Some {A} & a.

(** A registry: a plain object with the models as own properties.
    [orm !! name] is the property read [orm[name]]. *)
Record Orm := { models : gmap string ModelHandle }.

#[global] Instance Orm_lookup : Lookup string OrmValue Orm :=
  λ name orm,
    match models orm !! name with
    | Some m => Some (Registered m)
    | None => if is_inherited name then Some (Inherited name) else None
    end.

(** [this]: the two model registries and the configured
    [footprints.models.options]. *)
Record Service := {
  app_orm : Orm;
  packs_mongoose_orm : Orm;
  config_models_options : option Options
}.

(** ** The document store *)

(** A document is the list of its fields; the store maps a collection
    name to its documents, in insertion order. *)
Abbreviation Doc := (list (string * Value)).
Abbreviation Store := (gmap string (list Doc)).

Definition coll (s : Store) (m : string) : list Doc := default [] (s !! m).

Definition doc_id (d : Doc) : Value := default VUndefined (lookup_field "_id" d).

(** The calls the service issues on a model (named by its collection) or
    on a loaded document. *)
Inductive Call : Type :=
| CCreate (m : string) (values : Value)
| CFindOne (m : string) (q : Value)
| CFind (m : string) (q : Value) (select_id : bool) (limit : option Z)
| CUpdate (m : string) (q : Value) (values : Value)
| CRemove (m : string) (q : Value)
| CSave (m : string) (doc : Value).

(** The calls that only read. *)
Definition is_read (c : Call) : Prop :=
  match c with
  | CFindOne _ _ | CFind _ _ _ _ => True
  | _ => False
  end.

(** Modelled from the spec: the store client (the Mongoose model API) is
    an external collaborator, absent from the repository.  It follows the
    contract of the specification's external interfaces: insert, find one
    or many by filter with a limit and a projection, update by filter,
    delete many by filter, and saving a loaded document.

    A key given for [_id] may be a document: the store casts it to that
    document's [_id], which is what lets [update] pass the projected
    documents of its first read as an id set. *)
Definition castId (v : Value) : Value :=
  match v with
  | VObj fs =>
      match lookup_field "_id" fs with
      | Some x => if bool_decide (x = VUndefined) then v else x
      | None => v
      end
  | _ => v
  end.

Definition castFor (k : string) (v : Value) : Value :=
  if bool_decide (k = "_id") then castId v else v.

(** Modelled from the spec: one condition [k: c] of a filter, on a
    document.  [{$in: [...]}] is membership, anything else is equality. *)
Definition match_cond (k : string) (c : Value) (d : Doc) : bool :=
  let x := default VUndefined (lookup_field k d) in
  match getField c "$in" with
  | VArr l => bool_decide (x ∈ castFor k <$> l)
  | _ => bool_decide (x = castFor k c)
  end.

(** Modelled from the spec: a document matches a filter object when it
    meets each of its conditions. *)
Definition matches (q : Value) (d : Doc) : bool :=
  match q with
  | VObj conds => forallb (λ kc, match_cond kc.1 kc.2 d) conds
  | _ => false
  end.

Definition find_docs (q : Value) (docs : list Doc) : list Doc :=
  filter (λ d, Is_true (matches q d)) docs.

(** [query.limit(n)]. *)
Definition limited (limit : option Z) (docs : list Doc) : list Doc :=
  match limit with
  | Some n => take (Z.abs_nat n) docs
  | None => docs
  end.

(** [query.select('_id')]: the documents reduced to their [_id]. *)
Definition project_id (d : Doc) : Doc := [("_id", doc_id d)].

(** Modelled from the spec: the id the store gives a document inserted
    without one. *)
Definition fresh_id (docs : list Doc) : Value :=
  VNum (1 + foldr (λ d acc, match doc_id d with VNum n => Z.max n acc | _ => acc end) 0 docs).

(** Modelled from the spec: insert of one value set; it fails on a value
    that is not an object and on a primary key already in use. *)
Definition insert_one (values : Value) (docs : list Doc) : option (Doc * list Doc) :=
  match values with
  | VObj fs =>
      let id := match lookup_field "_id" fs with
                | Some v => if bool_decide (v = VUndefined) then fresh_id docs else v
                | None => fresh_id docs
                end in
      if bool_decide (id ∈ doc_id <$> docs) then None
      else let d := assign "_id" id fs in Some (d, docs ++ [d])
  | _ => None
  end.

(** Modelled from the spec: batch insert, one value set after the other;
    the documents inserted before a failure stay. *)
Fixpoint insert_many (vs : list Value) (docs : list Doc) : option (list Doc) * list Doc :=
  match vs with
  | [] => (Some [], docs)
  | v :: vs' =>
      match insert_one v docs with
      | None => (None, docs)
      | Some (d, docs') =>
          match insert_many vs' docs' with
          | (Some ds, docs'') => (Some (d :: ds), docs'')
          | (None, docs'') => (None, docs'')
          end
      end
  end.

(** Modelled from the spec: the fields of [fs] set on a document. *)
Definition set_fields (fs : list (string * Value)) (d : Doc) : Doc :=
  foldl (λ acc kv, assign kv.1 kv.2 acc) d fs.

(** The primary key is immutable: an update must leave the [_id] of a
    document as it is. *)
Definition id_kept (fs : list (string * Value)) (d : Doc) : bool :=
  bool_decide (doc_id (set_fields fs d) = doc_id d).

(** Modelled from the spec: the update by filter.  The specification's
    contract names an update of every match; the call the service makes,
    [Model.update(q, values)] without [{ multi: true }], is Mongoose's
    update of the first document matching [q], and of that one only. *)
Fixpoint update_first (q : Value) (fs : list (string * Value)) (docs : list Doc)
  : list Doc :=
  match docs with
  | [] => []
  | d :: rest =>
      if matches q d then set_fields fs d :: rest else d :: update_first q fs rest
  end.

(** Modelled from the spec: the store refuses values that are no object
    and values that would change the [_id] of the document they are set
    on; with no match it succeeds and changes nothing. *)
Definition update_docs (q values : Value) (docs : list Doc) : option (list Doc) :=
  match values with
  | VObj fs =>
      match head (find_docs q docs) with
      | Some d => if id_kept fs d then Some (update_first q fs docs) else None
      | None => Some docs
      end
  | _ => None
  end.

(** Modelled from the spec: removal of every document matching [q]. *)
Definition remove_docs (q : Value) (docs : list Doc) : list Doc :=
  filter (λ d, ¬ Is_true (matches q d)) docs.

(** Modelled from the spec: [doc.save()] writes the document over the
    stored one with its [_id]. *)
Fixpoint replace_doc (d : Doc) (docs : list Doc) : list Doc :=
  match docs with
  | [] => []
  | d' :: rest =>
      if bool_decide (doc_id d' = doc_id d) then d :: rest
      else d' :: replace_doc d rest
  end.

(** A collection is well formed when every document has a primary key
    and no two documents share one. *)
Definition wf_collection (docs : list Doc) : Prop :=
  NoDup (doc_id <$> docs) ∧ VUndefined ∉ doc_id <$> docs.

(** ** Promises over the store *)

Inductive Error : Type :=
| NoModelFound          (* 'No model found' *)
| NoParentId            (* 'No parentId provided' *)
| NoSuchReference       (* 'No such reference exist' *)
| NoParentRecord        (* 'No parent record found' *)
| NoChildId             (* 'No _id for child record' *)
| TypeError             (* a TypeError of the language *)
| StoreError.           (* a failure of the store itself *)

(** How an operation ends: with a promise, resolved or rejected; with an
    exception thrown before any promise is returned; or with a value
    that is no promise. *)
Inductive Result (A : Type) : Type :=
| Resolved (a : A)
| Rejected (e : Error)
| Thrown (e : Error)
| Returned (a : A).
Arguments Resolved {A} a.
Arguments Rejected {A} e.
Arguments Thrown {A} e.
Arguments Returned {A} a.

(** Modelled from the spec: what the store answers to a call, and the
    store it leaves.  The answers are those of a store that is up and
    that accepts the query: an outage, or a key the schema cannot cast,
    has no counterpart here, and what is proved below of a read or of a
    removal is proved of the answers of such a store. *)
Definition exec (c : Call) (s : Store) : Result Value * Store :=
  match c with
  | CFindOne m q =>
      (Resolved (from_option VObj VNull (head (find_docs q (coll s m)))), s)
  | CFind m q sel limit =>
      let found := limited limit (find_docs q (coll s m)) in
      (Resolved (VArr (VObj <$> (if sel then project_id <$> found else found))), s)
  | CCreate m (VArr vs) =>
      match insert_many vs (coll s m) with
      | (Some ds, docs) => (Resolved (VArr (VObj <$> ds)), <[m := docs]> s)
      | (None, docs) => (Rejected StoreError, <[m := docs]> s)
      end
  | CCreate m values =>
      match insert_one values (coll s m) with
      | Some (d, docs) => (Resolved (VObj d), <[m := docs]> s)
      | None => (Rejected StoreError, s)
      end
  | CUpdate m q values =>
      match update_docs q values (coll s m) with
      | Some docs =>
          (Resolved (VObj [("n", VNum (Z.of_nat (length (take 1 (find_docs q (coll s m))))))]),
           <[m := docs]> s)
      | None => (Rejected StoreError, s)
      end
  | CRemove m q =>
      (Resolved (VObj [("n", VNum (Z.of_nat (length (find_docs q (coll s m)))))]),
       <[m := remove_docs q (coll s m)]> s)
  | CSave m (VObj d) => (Resolved (VObj d), <[m := replace_doc d (coll s m)]> s)
  | CSave m _ => (Rejected StoreError, s)
  end.

(** The world a promise chain runs in: the store, the calls issued so
    far, and the writes of other clients that are still to land, one
    before each of the next store calls (the service holds no lock and
    opens no transaction; each call commits on its own). *)
Record World := {
  store : Store;
  calls : list Call;
  pending : list (Store → Store)
}.

Definition Promise (A : Type) : Type := World → Result A * World.

Definition resolve {A} (a : A) : Promise A := λ w, (Resolved a, w).
Definition reject {A} (e : Error) : Promise A := λ w, (Rejected e, w).
Definition throw {A} (e : Error) : Promise A := λ w, (Thrown e, w).
Definition plain {A} (a : A) : Promise A := λ w, (Returned a, w).

(** What a then-callback ends with settles the promise [then] returned:
    an exception rejects it, a plain value resolves it. *)
Definition settle {B} (r : Result B * World) : Result B * World :=
  match r with
  | (Thrown e, w) => (Rejected e, w)
  | (Returned b, w) => (Resolved b, w)
  | _ => r
  end.

(** An outcome that is a promise, fulfilled or rejected. *)
Definition is_settled {A} (r : Result A) : Prop :=
  match r with
  | Resolved _ | Rejected _ => True
  | _ => False
  end.

(** [p.then(k)].  An exception thrown while [p] is evaluated goes
    through; a [p] that is no promise has no [then], a [TypeError]. *)
Definition andThen {A B} (p : Promise A) (k : A → Promise B) : Promise B :=
  λ w, match p w with
       | (Resolved a, w') => settle (k a w')
       | (Rejected e, w') => (Rejected e, w')
       | (Thrown e, w') => (Thrown e, w')
       | (Returned _, w') => (Thrown TypeError, w')
       end.

Notation "x <- p ;; k" := (andThen p (λ x, k))
  (at level 62, p at next level, right associativity).
Notation "p ;;; k" := (andThen p (λ _, k))
  (at level 62, right associativity).

(** The store a call meets: the store of the world once the next pending
    write of another client has landed. *)
Definition landed (w : World) : Store :=
  match pending w with
  | f :: _ => f (store w)
  | [] => store w
  end.

(** One call to the store: a pending write of another client lands, the
    call is logged, the store answers. *)
Definition call (c : Call) : Promise Value :=
  λ w,
    let '(r, s') := exec c (landed w) in
    (r, {| store := s'; calls := calls w ++ [c]; pending := tail (pending w) |}).

(** A world with no other client. *)
Definition quiet (s : Store) : World := {| store := s; calls := []; pending := [] |}.

(** ** The service *)

(** The filters the service builds: [{ _id: id }] and
    [{ _id: { $in: ids } }]. *)
Definition by_id (id : Value) : Value := VObj [("_id", id)].
Definition id_in (ids : Value) : Value := VObj [("_id", VObj [("$in", ids)])].

(** [record[field].push(x)]: a [TypeError] unless the field holds an
    array. *)
Definition push (record : Value) (field : string) (x : Value) : Promise Value :=
  match getField record field with
  | VArr xs => resolve (setField record field (VArr (xs ++ [x])))
  | _ => reject TypeError
  end.

(** [record.save()] on a record loaded from model [m]: only a document
    has the method. *)
Definition save (m : string) (record : Value) : Promise Value :=
  match record with
  | VObj _ => call (CSave m record)
  | _ => reject TypeError
  end.

(** [criteria || {}]. *)
Definition or_empty (criteria : Value) : Value :=
  if truthy criteria then criteria else VObj [].

Definition no_options : Options := {| findOne := false; defaultLimit := None |}.
Definition findOne_only : Options := {| findOne := true; defaultLimit := None |}.

Section FootprintService.
Variable this : Service.

Definition _getModel (modelName : string) : option OrmValue :=
  match app_orm this !! modelName with
  | Some m => Some m
  | None => packs_mongoose_orm this !! modelName
  end.

(** An inherited value is an object, and has no [schema.paths]: the
    [_.has] guard sends it to [null].  A field name that the paths of a
    model only inherit reads as a value without [options.ref], which
    [_getReferenceModelName] answers with [false] as it does [null]: it
    is [None] here. *)
Definition _getReferenceDefinition (model : OrmValue) (field : string)
  : option SchemaPath :=
  match model with
  | Registered m => schema_paths m !! field
  | Inherited _ => None
  end.

(** [None] stands for the [false] the source returns. *)
Definition _getReferenceModelName (model : OrmValue) (reference : string)
  : option string :=
  match _getReferenceDefinition model reference with
  | None => None
  | Some ref =>
      match options_ref ref with
      | VStr s => Some s
      | _ => None
      end
  end.

(** A call of a Mongoose method on [Model]: an inherited value has none
    of [find], [findOne], [update] and [remove], and calling what is
    undefined throws. *)
Definition on_model {A} (Model : OrmValue) (k : ModelHandle → Promise A) : Promise A :=
  match Model with
  | Registered m => k m
  | Inherited _ => throw TypeError
  end.

(** [Model.create(values)] where [Model] is an inherited value.  Only
    ['constructor'], which is [Object], has a [create]:
    [Object.create(values)] returns a new object with no own property
    when [values] is an object or null, and throws otherwise. *)
Definition create_inherited (name : string) (values : Value) : Promise Value :=
  if bool_decide (name = "constructor") then
    match values with
    | VObj _ | VArr _ | VNull => plain (VObj [])
    | _ => throw TypeError
    end
  else throw TypeError.

(** [modelOptions.defaultLimit] of
    [_.defaultsDeep({ }, options, _.get(this.config, 'footprints.models.options'))],
    and the limit the query gets: none when it is falsy. *)
Definition modelOptions_defaultLimit (options : option Options) : option Z :=
  match options ≫= defaultLimit with
  | Some n => Some n
  | None => config_models_options this ≫= defaultLimit
  end.

Definition query_limit (options : option Options) : option Z :=
  match modelOptions_defaultLimit options with
  | Some n => if n =? 0 then None else Some n
  | None => None
  end.

Definition create (modelName : string) (values : Value) (options : option Options)
  : Promise Value :=
  match _getModel modelName with
  | None => reject NoModelFound
  | Some (Registered Model) => call (CCreate (collection Model) values)
  | Some (Inherited name) => create_inherited name values
  end.

Definition find (modelName : string) (criteria : Value) (options : option Options)
  : Promise Value :=
  match _getModel modelName with
  | None => reject NoModelFound
  | Some Model =>
      let limit := query_limit options in
      let options := default no_options options in
      if negb (isPlainObject criteria) || findOne options
      then on_model Model (λ Model, call (CFindOne (collection Model) (by_id criteria)))
      else on_model Model (λ Model, call (CFind (collection Model) criteria false limit))
  end.

Definition update (modelName : string) (criteria values : Value)
  (options : option Options) : Promise Value :=
  match _getModel modelName with
  | None => reject NoModelFound
  | Some Model =>
      if isPlainObject criteria then
        on_model Model (λ Model,
          foundIds <- call (CFind (collection Model) criteria true (query_limit options)) ;;
          let ids := foundIds in
          call (CUpdate (collection Model) (id_in ids) values) ;;;
          call (CFind (collection Model) (id_in ids) false None))
      else
        on_model Model (λ Model,
          call (CUpdate (collection Model) (by_id criteria) values) ;;;
          call (CFindOne (collection Model) (by_id criteria)))
  end.

Definition destroy (modelName : string) (criteria : Value) (options : option Options)
  : Promise Value :=
  match _getModel modelName with
  | None => reject NoModelFound
  | Some Model =>
      if isPlainObject criteria then
        on_model Model (λ Model,
          list <- call (CFind (collection Model) criteria false None) ;;
          let records := list in
          call (CRemove (collection Model) criteria) ;;;
          resolve records)
      else
        on_model Model (λ Model,
          record <- call (CFindOne (collection Model) (by_id criteria)) ;;
          let records := record in
          call (CRemove (collection Model) (by_id criteria)) ;;;
          resolve records)
  end.

Definition createAssociation (parentModelName : string) (parentId : Value)
  (childAttributeName : string) (values : Value) (options : option Options)
  : Promise Value :=
  match _getModel parentModelName with
  | None => reject NoModelFound
  | Some Model =>
      if negb (truthy parentId) then reject NoParentId else
      match _getReferenceModelName Model childAttributeName with
      | None | Some "" => reject NoSuchReference
      | Some childModelName =>
          let childDefinition := _getReferenceDefinition Model childAttributeName in
          let options := Some (default no_options options) in
          on_model Model (λ Model,
            record <- call (CFindOne (collection Model) (by_id parentId)) ;;
            if negb (truthy record) then reject NoParentRecord else
            child <- create childModelName values options ;;
            if negb (truthy child) || negb (truthy (getField child "_id"))
            then reject NoChildId else
            match childDefinition with
            | None => reject TypeError
            | Some definition =>
                record' <- (if bool_decide (instance definition = "Array")
                            then push record childAttributeName (getField child "_id")
                            else resolve (setField record childAttributeName
                                            (getField child "_id"))) ;;
                save (collection Model) record' ;;;
                resolve child
            end)
      end
  end.

Definition findAssociation (parentModelName : string) (parentId : Value)
  (childAttributeName : string) (criteria : Value) (options : option Options)
  : Promise Value :=
  match _getModel parentModelName with
  | None => reject NoModelFound
  | Some Model =>
      if negb (truthy parentId) then reject NoParentId else
      match _getReferenceModelName Model childAttributeName with
      | None | Some "" => reject NoSuchReference
      | Some childModelName =>
          match app_orm this !! childModelName with
          | None => reject NoSuchReference
          | Some _ =>
              let options := Some (default no_options options) in
              record <- find "User" parentId options ;;
              if negb (truthy record) then reject NoParentRecord else
              if negb (truthy (getField record childAttributeName))
              then resolve (VArr []) else
              let query :=
                if isArray (getField record childAttributeName)
                then id_in (getField record childAttributeName)
                else by_id (getField record childAttributeName) in
              let criteria := or_empty criteria in
              find childModelName (extend query criteria) None
          end
      end
  end.

Definition updateAssociation (parentModelName : string) (parentId : Value)
  (childAttributeName : string) (criteria values : Value) (options : option Options)
  : Promise Value :=
  match _getModel parentModelName with
  | None => reject NoModelFound
  | Some Model =>
      if negb (truthy parentId) then reject NoParentId else
      match _getReferenceModelName Model childAttributeName with
      | None | Some "" => reject NoSuchReference
      | Some childModelName =>
          let options := default no_options options in
          record <- find parentModelName parentId
                      (Some {| findOne := true; defaultLimit := defaultLimit options |}) ;;
          if negb (truthy record) then reject NoParentRecord else
          if negb (truthy (getField record childAttributeName))
          then resolve VNull else
          let ids :=
            if isArray (getField record childAttributeName)
            then getField record childAttributeName
            else VArr [getField record childAttributeName] in
          let criteria := or_empty criteria in
          let query := extend (id_in ids) criteria in
          update childModelName query values None
      end
  end.

(** The record [destroyAssociation] saves was loaded from [Model]: its
    [save] writes to the collection of that model. *)
Definition destroyAssociation (parentModelName : string) (parentId : Value)
  (childAttributeName : string) (criteria : Value) (options : option Options)
  : Promise Value :=
  match _getModel parentModelName with
  | None => reject NoModelFound
  | Some Model =>
      if negb (truthy parentId) then reject NoParentId else
      match _getReferenceModelName Model childAttributeName with
      | None | Some "" => reject NoSuchReference
      | Some childModelName =>
          let options := Some (default no_options options) in
          record <- find parentModelName parentId options ;;
          if negb (truthy record) then reject NoParentRecord else
          match getField record childAttributeName with
          | VArr references =>
              list <- find childModelName criteria options ;;
              if negb (truthy list) then resolve (VArr []) else
              match list with
              | VArr items =>
                  let ids := (λ item, getField item "_id") <$> items in
                  destroy childModelName (id_in (VArr ids)) None ;;;
                  on_model Model (λ Model,
                    save (collection Model)
                      (setField record childAttributeName
                         (VArr (difference references ids)))) ;;;
                  (* [id => { _id: id }] has a block body: it returns undefined *)
                  resolve (VArr ((λ _, VUndefined) <$> ids))
              | _ => reject TypeError
              end
          | reference =>
              destroy childModelName reference options ;;;
              on_model Model (λ Model,
                save (collection Model) (setField record childAttributeName VNull)) ;;;
              (* [() => { _id: ... }] has a block body: it returns undefined *)
              resolve VUndefined
          end
      end
  end.

End FootprintService.

(** ** Example registries and stores *)

Module Examples.

(** The specification's example: a parent with an array of tag
    references. *)
Definition Parent : ModelHandle :=
  {| collection := "parents";
     schema_paths := {[ "tags" := {| instance := "Array"; options_ref := VStr "Tag" |} ]} |}.

Definition Tag : ModelHandle := {| collection := "tags"; schema_paths := ∅ |}.

Definition tagging : Service :=
  {| app_orm := {| models := {[ "Parent" := Parent; "Tag" := Tag ]} |};
     packs_mongoose_orm := {| models := ∅ |};
     config_models_options := None |}.

Definition tag (n : Z) : Doc := [("_id", VNum n); ("value", VNum n)].

Definition parent1 : Doc := [("_id", VNum 1); ("tags", VArr [VNum 10; VNum 20; VNum 30])].

Definition tagging_store : Store :=
  {[ "parents" := [parent1]; "tags" := [tag 10; tag 20; tag 30] ]}.

(** A blog: posts refer to comments; users are a third model. *)
Definition Post : ModelHandle :=
  {| collection := "posts";
     schema_paths :=
       {[ "comments" := {| instance := "Array"; options_ref := VStr "Comment" |} ]} |}.

Definition Comment : ModelHandle := {| collection := "comments"; schema_paths := ∅ |}.

Definition User : ModelHandle :=
  {| collection := "users";
     schema_paths :=
       {[ "friends" := {| instance := "Array"; options_ref := VStr "User" |};
          "tags" := {| instance := "Array"; options_ref := VStr "Tag" |} ]} |}.

(** An account has a single owner. *)
Definition Account : ModelHandle :=
  {| collection := "accounts";
     schema_paths :=
       {[ "owner" := {| instance := "ObjectID"; options_ref := VStr "User" |} ]} |}.

Definition blog : Service :=
  {| app_orm := {| models := {[ "Post" := Post; "Comment" := Comment; "User" := User;
                                  "Tag" := Tag; "Account" := Account ]} |};
     packs_mongoose_orm := {| models := ∅ |};
     config_models_options := None |}.

Definition post1 : Doc := [("_id", VNum 1); ("comments", VArr [VNum 5])].
Definition comment5 : Doc := [("_id", VNum 5); ("text", VStr "first")].

(** User 7 has no tag yet; user 3 lists themself among their friends. *)
Definition user7 : Doc := [("_id", VNum 7); ("friends", VArr []); ("tags", VArr [])].
Definition user3 : Doc := [("_id", VNum 3); ("friends", VArr [VNum 3]); ("tags", VArr [])].

(** Account 9 has no owner, account 8 is owned by user 7. *)
Definition account9 : Doc := [("_id", VNum 9); ("owner", VNull)].
Definition account8 : Doc := [("_id", VNum 8); ("owner", VNum 7)].

Definition blog_store : Store :=
  {[ "posts" := [post1]; "comments" := [comment5];
     "users" := [user7; user3]; "tags" := [tag 10; tag 20];
     "accounts" := [account9; account8] ]}.

(** A tag that another client inserts while a [destroy] is under way. *)
Definition late_tag : Doc := [("_id", VNum 21); ("value", VNum 20)].

Definition insert_late_tag (s : Store) : Store :=
  <["tags" := coll s "tags" ++ [late_tag]]> s.

End Examples.

(** A child only registered with the trailpack, for the examples below. *)
Definition packed : Service :=
  {| app_orm := {| models := {[ "Parent" := Examples.Parent ]} |};
     packs_mongoose_orm := {| models := {[ "Tag" := Examples.Tag ]} |};
     config_models_options := Some {| findOne := false; defaultLimit := Some 2 |} |}.

(** ** Running promise chains *)

Lemma call_eq (c : Call) (w : World) :
  call c w =
    ((exec c (landed w)).1,
     {| store := (exec c (landed w)).2; calls := calls w ++ [c];
        pending := tail (pending w) |}).
Proof. unfold call. destruct (exec c _). reflexivity. Qed.

(** The store answers with a promise. *)
Lemma exec_settled (c : Call) (s : Store) : is_settled (exec c s).1.
Proof.
  destruct c as [m values | m q | m q sel limit | m q values | m q | m doc];
    cbn -[insert_one insert_many update_docs]; try exact I.
  - destruct values; try (destruct (insert_one _ _) as [[d docs] |]; exact I).
    destruct (insert_many _ _) as [[ds |] docs]; exact I.
  - destruct (update_docs _ _ _); exact I.
  - destruct doc; exact I.
Qed.

Lemma settle_call (c : Call) (w : World) : settle (call c w) = call c w.
Proof.
  unfold call. pose proof (exec_settled c (landed w)) as H.
  destruct (exec c (landed w)) as [[v | e | e | v] s']; try reflexivity;
    destruct H.
Qed.

Lemma settle_settle {B} (r : Result B * World) : settle (settle r) = settle r.
Proof. destruct r as [[b | e | e | b] w]; reflexivity. Qed.

Lemma andThen_resolved {A B} (p : Promise A) (k : A → Promise B) w a w' :
  p w = (Resolved a, w') → andThen p k w = settle (k a w').
Proof. unfold andThen. intros ->. reflexivity. Qed.

Lemma andThen_inv {A B} (p : Promise A) (k : A → Promise B) w b w' :
  andThen p k w = (Resolved b, w') →
  ∃ a w1, p w = (Resolved a, w1) ∧ settle (k a w1) = (Resolved b, w').
Proof.
  unfold andThen. destruct (p w) as [[a | e | e | a] w1]; try discriminate.
  intros H. exists a, w1. split; [reflexivity | exact H].
Qed.

Lemma settled_andThen_inv {A B} (p : Promise A) (k : A → Promise B) w b w' :
  settle (andThen p k w) = (Resolved b, w') →
  ∃ a w1, p w = (Resolved a, w1) ∧ settle (k a w1) = (Resolved b, w').
Proof.
  unfold andThen. destruct (p w) as [[a | e | e | a] w1]; try discriminate.
  rewrite settle_settle. intros H. exists a, w1. split; [reflexivity | exact H].
Qed.

(** ** Unknown model names *)

(** X20: for a model name that reads as undefined from both registries
    (no model is registered under it, and it is no name that objects
    inherit), each of the eight public operations is rejected with
    'No model found' and leaves the world as it was: the store untouched,
    no call logged. *)
Theorem unknown_model_rejected (this : Service) (modelName : string) (w : World) :
  _getModel this modelName = None →
  (∀ values options,
      create this modelName values options w = (Rejected NoModelFound, w)) ∧
  (∀ criteria options,
      find this modelName criteria options w = (Rejected NoModelFound, w)) ∧
  (∀ criteria values options,
      update this modelName criteria values options w = (Rejected NoModelFound, w)) ∧
  (∀ criteria options,
      destroy this modelName criteria options w = (Rejected NoModelFound, w)) ∧
  (∀ parentId childAttributeName values options,
      createAssociation this modelName parentId childAttributeName values options w
      = (Rejected NoModelFound, w)) ∧
  (∀ parentId childAttributeName criteria options,
      findAssociation this modelName parentId childAttributeName criteria options w
      = (Rejected NoModelFound, w)) ∧
  (∀ parentId childAttributeName criteria values options,
      updateAssociation this modelName parentId childAttributeName criteria values
        options w = (Rejected NoModelFound, w)) ∧
  (∀ parentId childAttributeName criteria options,
      destroyAssociation this modelName parentId childAttributeName criteria options w
      = (Rejected NoModelFound, w)).
Proof.
  intros Hnone.
  unfold create, find, update, destroy, createAssociation, findAssociation,
    updateAssociation, destroyAssociation.
  rewrite Hnone. repeat split; intros; reflexivity.
Qed.

Lemma unknown_model_rejected_witness :
  _getModel Examples.tagging "Ghost" = None ∧
  ∀ criteria options,
    destroy Examples.tagging "Ghost" criteria options (quiet Examples.tagging_store)
    = (Rejected NoModelFound, quiet Examples.tagging_store).
Proof.
  split; [reflexivity |].
  apply (unknown_model_rejected Examples.tagging "Ghost" (quiet Examples.tagging_store)).
  reflexivity.
Defined.

(** C6 (where the code departs from it): no model is registered under
    ['constructor'], yet [_getModel] reads the registry as an object and
    gets the value every object inherits under that name, which is
    truthy.  None of the eight operations is then rejected with
    'No model found': [create] on an object of values returns an empty
    object that is no promise, [find], [update] and [destroy] throw a
    [TypeError] before any promise exists, and the association
    operations go on to reject with 'No such reference exist' (given a
    [parentId]).  Nothing reaches the store. *)
Theorem inherited_name_not_rejected (this : Service) (w : World) :
  models (app_orm this) !! "constructor" = None →
  models (packs_mongoose_orm this) !! "constructor" = None →
  _getModel this "constructor" = Some (Inherited "constructor") ∧
  (∀ fs options,
      create this "constructor" (VObj fs) options w = (Returned (VObj []), w)) ∧
  (∀ criteria options,
      find this "constructor" criteria options w = (Thrown TypeError, w)) ∧
  (∀ criteria values options,
      update this "constructor" criteria values options w = (Thrown TypeError, w)) ∧
  (∀ criteria options,
      destroy this "constructor" criteria options w = (Thrown TypeError, w)) ∧
  (∀ parentId childAttributeName values options,
      truthy parentId = true →
      createAssociation this "constructor" parentId childAttributeName values options w
      = (Rejected NoSuchReference, w)) ∧
  (∀ parentId childAttributeName criteria options,
      truthy parentId = true →
      findAssociation this "constructor" parentId childAttributeName criteria options w
      = (Rejected NoSuchReference, w)) ∧
  (∀ parentId childAttributeName criteria values options,
      truthy parentId = true →
      updateAssociation this "constructor" parentId childAttributeName criteria values
        options w = (Rejected NoSuchReference, w)) ∧
  (∀ parentId childAttributeName criteria options,
      truthy parentId = true →
      destroyAssociation this "constructor" parentId childAttributeName criteria options w
      = (Rejected NoSuchReference, w)).
Proof.
  intros Happ _.
  assert (_getModel this "constructor" = Some (Inherited "constructor")) as HM.
  { unfold _getModel, lookup at 1, Orm_lookup. rewrite Happ. reflexivity. }
  split; [exact HM |].
  unfold create, find, update, destroy, createAssociation, findAssociation,
    updateAssociation, destroyAssociation.
  rewrite HM. repeat split; intros; try reflexivity.
  - destruct (negb (isPlainObject criteria) || findOne (default no_options options));
      reflexivity.
  - destruct (isPlainObject criteria); reflexivity.
  - destruct (isPlainObject criteria); reflexivity.
  - rewrite H. reflexivity.
  - rewrite H. reflexivity.
  - rewrite H. reflexivity.
  - rewrite H. reflexivity.
Qed.

Lemma inherited_name_not_rejected_witness :
  create Examples.tagging "constructor" (VObj [("value", VNum 1)]) None
    (quiet Examples.tagging_store)
  = (Returned (VObj []), quiet Examples.tagging_store) ∧
  find Examples.tagging "constructor" (VNum 1) None (quiet Examples.tagging_store)
  = (Thrown TypeError, quiet Examples.tagging_store) ∧
  destroyAssociation Examples.tagging "constructor" (VNum 1) "tags" (VObj []) None
    (quiet Examples.tagging_store)
  = (Rejected NoSuchReference, quiet Examples.tagging_store).
Proof.
  destruct (inherited_name_not_rejected Examples.tagging (quiet Examples.tagging_store)
              eq_refl eq_refl)
    as (_ & Hcreate & Hfind & _ & _ & _ & _ & _ & Hdestroy).
  split; [apply Hcreate |]. split; [apply Hfind |]. apply Hdestroy. reflexivity.
Defined.

(** ** find: a scalar id against a filter with findOne *)

Lemma matches_by_id (x : Value) (d : Doc) :
  getField x "$in" = VUndefined →
  matches (by_id x) d = bool_decide (doc_id d = castId x).
Proof.
  intros Hin. unfold matches, by_id, match_cond, castFor. simpl.
  rewrite Hin, andb_true_r. reflexivity.
Qed.

Lemma find_docs_by_id_document (id : Value) (docs : list Doc) :
  isPlainObject id = false → id ≠ VUndefined →
  find_docs (by_id (by_id id)) docs = find_docs (by_id id) docs.
Proof.
  intros Hplain Hdef. unfold find_docs. apply list_filter_iff. intros d.
  rewrite !matches_by_id.
  - assert (castId (by_id id) = castId id) as ->; [| reflexivity].
    unfold by_id, castId at 1. simpl. rewrite bool_decide_eq_false_2 by exact Hdef.
    destruct id; try reflexivity. discriminate.
  - destruct id; try reflexivity. discriminate.
  - reflexivity.
Qed.

(** C1 (as the code has it): for a scalar id, [find] with the bare id,
    with or without [findOne: true], issues [findOne({ _id: id })];
    [find] with the filter [{ _id: id }] and [findOne: true] issues
    another query, [findOne({ _id: { _id: id } })], keyed by the whole
    filter.  For a defined id the two calls still give the same result
    and leave the same store, since the store casts a key of document
    shape to its [_id]. *)
Theorem find_scalar_id_queries (this : Service) (modelName : string) (id : Value)
  (w : World) :
  isPlainObject id = false →
  (∀ Model : ModelHandle, _getModel this modelName = Some Model →
     find this modelName id None w
     = call (CFindOne (collection Model) (by_id id)) w ∧
     find this modelName id (Some findOne_only) w
     = call (CFindOne (collection Model) (by_id id)) w ∧
     find this modelName (by_id id) (Some findOne_only) w
     = call (CFindOne (collection Model) (by_id (by_id id))) w ∧
     by_id (by_id id) ≠ by_id id) ∧
  (id ≠ VUndefined →
     (find this modelName (by_id id) (Some findOne_only) w).1
     = (find this modelName id None w).1 ∧
     store (find this modelName (by_id id) (Some findOne_only) w).2
     = store (find this modelName id None w).2).
Proof.
  intros Hplain. split.
  - intros Model HM. unfold find. rewrite HM, Hplain. simpl.
    repeat split; try reflexivity.
    intros [= H]. rewrite <- H in Hplain. discriminate.
  - intros Hdef. unfold find.
    destruct (_getModel this modelName) as [[Model | name] |].
    + rewrite Hplain. cbn -[call]. rewrite !call_eq. cbn -[find_docs].
      rewrite find_docs_by_id_document by assumption. split; reflexivity.
    + rewrite Hplain. split; reflexivity.
    + split; reflexivity.
Qed.

Lemma find_scalar_id_queries_witness :
  (find Examples.tagging "Tag" (by_id (VNum 20)) (Some findOne_only)
     (quiet Examples.tagging_store)).1
  = (find Examples.tagging "Tag" (VNum 20) None (quiet Examples.tagging_store)).1.
Proof.
  apply (find_scalar_id_queries Examples.tagging "Tag" (VNum 20)
           (quiet Examples.tagging_store)); [reflexivity | discriminate].
Defined.

(** The claim as the specification words it, that the two calls are the
    same query with the same result, fails: the queries logged differ. *)
Lemma find_filter_findOne_not_same_query :
  ¬ (∀ (this : Service) (modelName : string) (id : Value) (w : World),
       isPlainObject id = false →
       find this modelName id None w
       = find this modelName (by_id id) (Some findOne_only) w).
Proof.
  intros H.
  specialize (H Examples.tagging "Tag" (VNum 20) (quiet Examples.tagging_store) eq_refl).
  apply (f_equal (λ r, calls r.2)) in H. vm_compute in H. discriminate H.
Qed.

(** ** findAssociation: where the parent is loaded from *)

(** The parent is read through [this.find('User', parentId, options)]:
    once the preamble has passed, the model named by [parentModelName]
    plays no part in the load. *)
Lemma findAssociation_after_preamble (this : Service) (parentModelName : string)
  (parentId : Value) (childAttributeName : string) (criteria : Value)
  (options : option Options) (Model childModel : ModelHandle) (childModelName : string) :
  _getModel this parentModelName = Some Model →
  truthy parentId = true →
  _getReferenceModelName Model childAttributeName = Some childModelName →
  childModelName ≠ "" →
  app_orm this !! childModelName = Some (Registered childModel) →
  findAssociation this parentModelName parentId childAttributeName criteria options
  = (record <- find this "User" parentId (Some (default no_options options)) ;;
     if negb (truthy record) then reject NoParentRecord else
     if negb (truthy (getField record childAttributeName)) then resolve (VArr []) else
     find this childModelName
       (extend (if isArray (getField record childAttributeName)
                then id_in (getField record childAttributeName)
                else by_id (getField record childAttributeName))
          (or_empty criteria)) None).
Proof.
  intros HM Hid Hname Hne Hchild. unfold findAssociation.
  rewrite HM, Hid, Hname, Hchild. simpl.
  destruct childModelName; [congruence | reflexivity].
Qed.

(** C2 (the code at a failing input): post 1 exists and [find] on
    ['Post'] returns it, yet [findAssociation('Post', 1, 'comments')]
    looks the parent up in the collection of ['User'], finds nothing
    there and is rejected with 'No parent record found'. *)
Theorem findAssociation_loads_parent_from_User :
  (find Examples.blog "Post" (VNum 1) None (quiet Examples.blog_store)).1
  = Resolved (VObj Examples.post1) ∧
  findAssociation Examples.blog "Post" (VNum 1) "comments" (VObj []) None
    (quiet Examples.blog_store)
  = (Rejected NoParentRecord,
     {| store := Examples.blog_store;
        calls := [CFindOne "users" (by_id (VNum 1))];
        pending := [] |}).
Proof. split; reflexivity. Qed.

(** ** findAssociation: the empty reference *)

(** A falsy reference (absent, null, 0, the empty string) does cut the
    operation short: an empty array, and no call beyond the parent load. *)
Lemma findAssociation_falsy_reference (this : Service) (parentModelName : string)
  (parentId : Value) (childAttributeName : string) (criteria : Value)
  (options : option Options) (Model childModel : ModelHandle) (childModelName : string)
  (record : Value) (w w1 : World) :
  _getModel this parentModelName = Some Model →
  truthy parentId = true →
  _getReferenceModelName Model childAttributeName = Some childModelName →
  childModelName ≠ "" →
  app_orm this !! childModelName = Some (Registered childModel) →
  find this "User" parentId (Some (default no_options options)) w = (Resolved record, w1) →
  truthy record = true →
  truthy (getField record childAttributeName) = false →
  findAssociation this parentModelName parentId childAttributeName criteria options w
  = (Resolved (VArr []), w1).
Proof.
  intros HM Hid Hname Hne Hchild Hfind Hrec Href.
  rewrite (findAssociation_after_preamble this parentModelName parentId
             childAttributeName criteria options Model childModel childModelName)
    by assumption.
  rewrite (andThen_resolved _ _ _ _ _ Hfind), Hrec, Href. reflexivity.
Qed.

(** C8 (the code at a failing input): user 7 has an empty array of tags.
    The guard [!record[childAttributeName]] lets the empty array through,
    since an array is truthy: the child model is queried with
    [{ _id: { $in: [] } }]; and when the caller's criteria name [_id]
    they replace that condition, so the result is not even empty. *)
Theorem findAssociation_empty_array_queries_child :
  findAssociation Examples.blog "User" (VNum 7) "tags" (VObj []) None
    (quiet Examples.blog_store)
  = (Resolved (VArr []),
     {| store := Examples.blog_store;
        calls := [CFindOne "users" (by_id (VNum 7));
                  CFind "tags" (id_in (VArr [])) false None];
        pending := [] |}) ∧
  findAssociation Examples.blog "User" (VNum 7) "tags" (by_id (VNum 10)) None
    (quiet Examples.blog_store)
  = (Resolved (VArr [VObj (Examples.tag 10)]),
     {| store := Examples.blog_store;
        calls := [CFindOne "users" (by_id (VNum 7));
                  CFind "tags" (by_id (VNum 10)) false None];
        pending := [] |}).
Proof. split; reflexivity. Qed.

(** ** destroyAssociation on an array of references: what it returns *)

(** C4 (the code at the specification's example): with parent
    [{_id: 1, tags: [10, 20, 30]}] and criteria [{value: 20}], tag 20 is
    found, destroyed and taken out of the parent's array, and the parent
    is saved; but the promise resolves to [[undefined]], not to [[20]]:
    the arrow function [id => { _id: id }] has a block for a body. *)
Theorem destroyAssociation_example_returns_undefined :
  destroyAssociation Examples.tagging "Parent" (VNum 1) "tags"
    (VObj [("value", VNum 20)]) None (quiet Examples.tagging_store)
  = (Resolved (VArr [VUndefined]),
     {| store :=
          <["parents" := [[("_id", VNum 1); ("tags", VArr [VNum 10; VNum 30])]]]>
            (<["tags" := [Examples.tag 10; Examples.tag 30]]> Examples.tagging_store);
        calls := [CFindOne "parents" (by_id (VNum 1));
                  CFind "tags" (VObj [("value", VNum 20)]) false None;
                  CFind "tags" (id_in (VArr [VNum 20])) false None;
                  CRemove "tags" (id_in (VArr [VNum 20]));
                  CSave "parents"
                    (VObj [("_id", VNum 1); ("tags", VArr [VNum 10; VNum 30])])];
        pending := [] |}) ∧
  VArr [VUndefined] ≠ VArr [VNum 20].
Proof. split; [reflexivity | discriminate]. Qed.

(** ** destroy on a filter *)

Lemma coll_insert (s : Store) (m : string) (docs : list Doc) :
  coll (<[m := docs]> s) m = docs.
Proof. unfold coll. rewrite lookup_insert_eq. reflexivity. Qed.

Lemma coll_insert_ne (s : Store) (m m' : string) (docs : list Doc) :
  m ≠ m' → coll (<[m := docs]> s) m' = coll s m'.
Proof. intros Hne. unfold coll. rewrite lookup_insert_ne by exact Hne. reflexivity. Qed.

(** C3 (as the code has it): on a filter, [destroy] reads the matching
    records, then removes with the same criteria, not with the ids it
    read, and resolves to the records read.  The removal takes whatever
    matches the criteria when it runs; when no other client writes in
    between, those are exactly the records read. *)
Theorem destroy_filter_removes_by_criteria (this : Service) (modelName : string)
  (Model : ModelHandle) (fs : list (string * Value)) (options : option Options)
  (w : World) :
  _getModel this modelName = Some Model →
  let m := collection Model in
  let criteria := VObj fs in
  let w1 := {| store := landed w; calls := calls w ++ [CFind m criteria false None];
               pending := tail (pending w) |} in
  let read := find_docs criteria (coll (landed w) m) in
  destroy this modelName criteria options w
  = (Resolved (VArr (VObj <$> read)),
     {| store := <[m := remove_docs criteria (coll (landed w1) m)]> (landed w1);
        calls := calls w ++ [CFind m criteria false None; CRemove m criteria];
        pending := tail (tail (pending w)) |}) ∧
  (pending w = [] →
   landed w1 = store w ∧
   ∀ d, d ∈ coll (store w) m →
        (d ∉ remove_docs criteria (coll (store w) m) ↔ d ∈ read)).
Proof.
  intros HM m criteria w1 read. split.
  - unfold destroy. rewrite HM. cbn -[call]. unfold andThen.
    rewrite !call_eq. cbn -[find_docs remove_docs landed].
    rewrite <- app_assoc. reflexivity.
  - intros Hq. unfold read, w1, landed. rewrite Hq. simpl. split; [reflexivity |].
    intros d Hd. unfold remove_docs, find_docs. rewrite !list_elem_of_filter.
    split.
    + intros Hnot. split; [| exact Hd].
      destruct (matches criteria d); [exact I |].
      exfalso. apply Hnot. split; [intros [] | exact Hd].
    + intros [Hm _] [Hn _]. exact (Hn Hm).
Qed.

Lemma destroy_filter_removes_by_criteria_witness :
  (destroy Examples.tagging "Tag" (VObj [("value", VNum 20)]) None
     (quiet Examples.tagging_store)).1
  = Resolved (VArr [VObj (Examples.tag 20)]).
Proof.
  rewrite (proj1 (destroy_filter_removes_by_criteria Examples.tagging "Tag" Examples.Tag
                    [("value", VNum 20)] None (quiet Examples.tagging_store) eq_refl)).
  reflexivity.
Defined.

(** The claim as the specification words it fails: a tag that another
    client inserts between the read and the removal matches the criteria
    at removal time and is not in the read set; a removal by the ids read
    would keep it, and [destroy] removes it. *)
Lemma destroy_removes_record_not_read :
  let criteria := VObj [("value", VNum 20)] in
  let w := {| store := Examples.tagging_store; calls := [];
              pending := [id; Examples.insert_late_tag] |} in
  let at_removal := coll (Examples.insert_late_tag Examples.tagging_store) "tags" in
  (destroy Examples.tagging "Tag" criteria None w).1
  = Resolved (VArr [VObj (Examples.tag 20)]) ∧
  at_removal = [Examples.tag 10; Examples.tag 20; Examples.tag 30; Examples.late_tag] ∧
  matches criteria Examples.late_tag = true ∧
  remove_docs (id_in (VArr [VObj (Examples.tag 20)])) at_removal
  = [Examples.tag 10; Examples.tag 30; Examples.late_tag] ∧
  calls (destroy Examples.tagging "Tag" criteria None w).2
  = [CFind "tags" criteria false None; CRemove "tags" criteria] ∧
  coll (store (destroy Examples.tagging "Tag" criteria None w).2) "tags"
  = [Examples.tag 10; Examples.tag 30].
Proof. repeat split; reflexivity. Qed.

(** ** destroyAssociation on a single, empty reference *)


Lemma destroy_scalar (this : Service) (modelName : string) (Model : ModelHandle)
  (criteria : Value) (options : option Options) (w : World) :
  _getModel this modelName = Some Model →
  isPlainObject criteria = false →
  pending w = [] →
  let m := collection Model in
  destroy this modelName criteria options w
  = (Resolved (from_option VObj VNull (head (find_docs (by_id criteria) (coll (store w) m)))),
     {| store := <[m := remove_docs (by_id criteria) (coll (store w) m)]> (store w);
        calls := calls w ++ [CFindOne m (by_id criteria); CRemove m (by_id criteria)];
        pending := [] |}).
Proof.
  intros HM Hplain Hq m. unfold destroy. rewrite HM, Hplain. cbn [on_model].
  unfold andThen.
  rewrite !call_eq. cbn -[find_docs remove_docs]. unfold landed. rewrite Hq.
  cbn -[find_docs remove_docs]. rewrite <- app_assoc. reflexivity.
Qed.



(** ** Fields of documents *)

Lemma lookup_assign_eq (k : string) (x : Value) (fs : list (string * Value)) :
  lookup_field k (assign k x fs) = Some x.
Proof.
  induction fs as [| [k' y] fs IH]; simpl.
  - rewrite bool_decide_eq_true_2; reflexivity.
  - destruct (bool_decide (k = k')) eqn:E; simpl.
    + rewrite bool_decide_eq_true_2; reflexivity.
    + rewrite E. exact IH.
Qed.

Lemma lookup_assign_ne (k k' : string) (x : Value) (fs : list (string * Value)) :
  k ≠ k' → lookup_field k' (assign k x fs) = lookup_field k' fs.
Proof.
  intros Hne. induction fs as [| [k0 y] fs IH]; simpl.
  - rewrite bool_decide_eq_false_2 by congruence. reflexivity.
  - destruct (bool_decide (k = k0)) eqn:E; simpl.
    + apply bool_decide_eq_true_1 in E. subst k0.
      rewrite !bool_decide_eq_false_2 by congruence. reflexivity.
    + destruct (bool_decide (k' = k0)); [reflexivity | exact IH].
Qed.

Lemma doc_id_assign (k : string) (x : Value) (d : Doc) :
  k ≠ "_id" → doc_id (assign k x d) = doc_id d.
Proof. intros Hne. unfold doc_id. rewrite lookup_assign_ne by exact Hne. reflexivity. Qed.

(** A filter on [_id] alone sees nothing of a document but its [_id]. *)
Lemma matches_by_id_doc_id (c : Value) (d d' : Doc) :
  doc_id d = doc_id d' → matches (by_id c) d = matches (by_id c) d'.
Proof.
  intros Hid. unfold matches, by_id, match_cond. simpl.
  fold (doc_id d). fold (doc_id d'). rewrite Hid. reflexivity.
Qed.

Lemma head_filter_replace (P : Doc → Prop) `{!∀ d, Decision (P d)}
  (docs : list Doc) (r r' : Doc) :
  (∀ d d', doc_id d = doc_id d' → P d → P d') →
  head (filter P docs) = Some r →
  doc_id r' = doc_id r →
  head (filter P (replace_doc r' docs)) = Some r'.
Proof.
  intros Hext Hhead Hid. induction docs as [| d rest IH]; [discriminate |].
  rewrite filter_cons in Hhead. simpl. destruct (decide (P d)) as [Hd | Hd].
  - simpl in Hhead. injection Hhead as ->.
    rewrite bool_decide_eq_true_2 by congruence.
    rewrite filter_cons_True by (apply (Hext r); [congruence | exact Hd]).
    reflexivity.
  - assert (P r) as Hr.
    { apply head_Some_elem_of in Hhead. apply list_elem_of_filter in Hhead. tauto. }
    rewrite bool_decide_eq_false_2.
    + rewrite filter_cons_False by exact Hd. apply IH, Hhead.
    + intros Heq. apply Hd. apply (Hext r); [congruence | exact Hr].
Qed.

(** ** createAssociation *)

Lemma call_quiet (c : Call) (w : World) :
  pending w = [] →
  call c w
  = ((exec c (store w)).1,
     {| store := (exec c (store w)).2; calls := calls w ++ [c]; pending := [] |}).
Proof. intros Hq. rewrite call_eq. unfold landed. rewrite Hq. reflexivity. Qed.

(** A child that comes back with an [_id] was inserted as one document,
    last in its collection. *)
Lemma create_with_id (m : string) (values child : Value) (s s1 : Store) :
  exec (CCreate m values) s = (Resolved child, s1) →
  truthy (getField child "_id") = true →
  ∃ d, child = VObj d ∧ s1 = <[m := coll s m ++ [d]]> s.
Proof.
  intros Hexec Hid. unfold exec in Hexec.
  assert (∀ v, insert_one v (coll s m) = None ∨
               ∃ d, insert_one v (coll s m) = Some (d, coll s m ++ [d])) as Hone.
  { intros v. unfold insert_one. destruct v; auto.
    match goal with |- context [bool_decide (?x ∈ ?l)] =>
      destruct (bool_decide (x ∈ l)) end; eauto. }
  destruct values as [| | b | n | str | xs | fields]; cbn -[insert_one insert_many] in Hexec;
    try (match type of Hexec with
         | context [insert_one ?v _] => destruct (Hone v) as [E | [d E]]
         end;
         rewrite E in Hexec; [discriminate |];
         injection Hexec as <- <-; exists d; split; reflexivity).
  destruct (insert_many xs (coll s m)) as [[ds |] docs]; [| discriminate].
  injection Hexec as <- <-. discriminate Hid.
Qed.

(** C7: when [createAssociation] resolves, it resolves to the child the
    store created, and the parent record it saved is the loaded parent
    with the reference field changed: for an array path, the ids it held
    followed by the new child id; for any other path, the new child id,
    whatever it held before.  The calls are the parent load, the child
    insert and the parent save, and (the field not being [_id] itself)
    the parent read back from the store afterwards is the saved one. *)
Theorem createAssociation_links_child (this : Service) (parentModelName : string)
  (parentId : Value) (childAttributeName : string) (values : Value)
  (options : option Options) (w w' : World) (child : Value) :
  pending w = [] →
  createAssociation this parentModelName parentId childAttributeName values options w
  = (Resolved child, w') →
  ∃ (Model childModel : ModelHandle) (definition : SchemaPath) (childModelName : string)
    (record saved created : Doc),
    let P := collection Model in
    let C := collection childModel in
    let s1 := <[C := coll (store w) C ++ [created]]> (store w) in
    _getModel this parentModelName = Some Model ∧
    _getReferenceDefinition Model childAttributeName = Some definition ∧
    options_ref definition = VStr childModelName ∧
    _getModel this childModelName = Some childModel ∧
    head (find_docs (by_id parentId) (coll (store w) P)) = Some record ∧
    exec (CCreate C values) (store w) = (Resolved child, s1) ∧
    child = VObj created ∧
    truthy (doc_id created) = true ∧
    (if bool_decide (instance definition = "Array")
     then ∃ ids, getField (VObj record) childAttributeName = VArr ids ∧
                 saved = assign childAttributeName (VArr (ids ++ [doc_id created])) record ∧
                 getField (VObj saved) childAttributeName = VArr (ids ++ [doc_id created])
     else saved = assign childAttributeName (doc_id created) record ∧
          getField (VObj saved) childAttributeName = doc_id created) ∧
    calls w' = calls w ++ [CFindOne P (by_id parentId); CCreate C values;
                           CSave P (VObj saved)] ∧
    store w' = <[P := replace_doc saved (coll s1 P)]> s1 ∧
    (childAttributeName ≠ "_id" →
     head (find_docs (by_id parentId) (coll (store w') P)) = Some saved).
Proof.
  intros Hq H. unfold createAssociation in H.
  destruct (_getModel this parentModelName) as [[Model | name] |] eqn:HM;
    [| destruct (negb (truthy parentId)); discriminate | discriminate].
  destruct (truthy parentId) eqn:Hpid; [| discriminate]. cbn [negb] in H.
  destruct (_getReferenceModelName Model childAttributeName) as [[| a cn] |] eqn:Hname;
    try discriminate.
  cbn [on_model] in H.
  apply andThen_inv in H as (record & w1 & Hload & H).
  rewrite (call_quiet _ _ Hq) in Hload. cbn -[find_docs] in Hload.
  injection Hload as Hrecord Hw1.
  destruct (truthy record) eqn:Hrt; [| discriminate]. cbn [negb] in H.
  apply settled_andThen_inv in H as (child' & w2 & Hcreate & H).
  unfold create in Hcreate.
  destruct (_getModel this (String a cn)) as [[childModel | inherited] |] eqn:HC;
    [| | discriminate].
  2: { unfold create_inherited in Hcreate.
       destruct (bool_decide (inherited = "constructor")); [| discriminate].
       destruct values; discriminate. }
  assert (pending w1 = []) as Hq1 by (subst w1; reflexivity).
  rewrite (call_quiet _ _ Hq1) in Hcreate.
  apply pair_equal_spec in Hcreate as [Hchild Hw2].
  destruct (truthy child') eqn:Hct; [| discriminate].
  destruct (truthy (getField child' "_id")) eqn:Hcid; [| discriminate].
  cbn [negb orb] in H.
  destruct (_getReferenceDefinition Model childAttributeName) as [definition |] eqn:Hdef;
    [| discriminate].
  apply settled_andThen_inv in H as (record' & w3 & Hmut & H).
  apply settled_andThen_inv in H as (saved' & w4 & Hsave & H).
  injection H as -> ->.
  assert (store w1 = store w) as Hs1 by (subst w1; reflexivity).
  destruct (exec (CCreate (collection childModel) values) (store w1)) as [r s1] eqn:Hexec.
  cbn [fst snd] in Hchild, Hw2. subst r. rewrite Hs1 in Hexec.
  destruct (create_with_id _ _ _ _ _ Hexec Hcid) as (created & -> & ->).
  destruct (head (find_docs (by_id parentId) (coll (store w) (collection Model))))
    as [parent |] eqn:Hhead; simpl in Hrecord; [| subst record; discriminate].
  subst record.
  assert (w3 = w2 ∧
          ∃ saved, record' = VObj saved ∧
            if bool_decide (instance definition = "Array")
            then ∃ ids, getField (VObj parent) childAttributeName = VArr ids ∧
                   saved = assign childAttributeName (VArr (ids ++ [doc_id created])) parent
            else saved = assign childAttributeName (doc_id created) parent)
    as (-> & saved & -> & Hsaved).
  { destruct (bool_decide (instance definition = "Array")).
    - unfold push in Hmut.
      destruct (getField (VObj parent) childAttributeName) eqn:Hfield; try discriminate.
      injection Hmut as <- <-. split; [reflexivity |]. eexists. split; [reflexivity |].
      eexists. split; reflexivity.
    - injection Hmut as <- <-. split; [reflexivity |]. eexists. split; reflexivity. }
  unfold save in Hsave.
  assert (pending w2 = []) as Hq2 by (subst w2; reflexivity).
  rewrite (call_quiet _ _ Hq2) in Hsave. cbn -[replace_doc] in Hsave.
  injection Hsave as _ <-.
  assert (options_ref definition = VStr (String a cn)) as Href.
  { unfold _getReferenceModelName in Hname. rewrite Hdef in Hname.
    destruct (options_ref definition); congruence. }
  exists Model, childModel, definition, (String a cn), parent, saved, created.
  cbv zeta. subst w2 w1. cbn -[replace_doc find_docs].
  repeat split; try assumption; try reflexivity.
  - destruct (bool_decide (instance definition = "Array")).
    + destruct Hsaved as (ids & Hids & ->). exists ids.
      repeat split; try assumption. simpl. rewrite lookup_assign_eq. reflexivity.
    + subst saved. split; [reflexivity |]. simpl. rewrite lookup_assign_eq. reflexivity.
  - rewrite <- !app_assoc. reflexivity.
  - intros Hattr. rewrite coll_insert.
    apply (head_filter_replace _ _ parent saved).
    + intros d d' Hid. rewrite (matches_by_id_doc_id _ _ _ Hid). tauto.
    + destruct (decide (collection childModel = collection Model)) as [E | E].
      * rewrite E, coll_insert. unfold find_docs. rewrite filter_app.
        unfold find_docs in Hhead.
        destruct (filter _ (coll (store w) (collection Model))); [discriminate |].
        exact Hhead.
      * rewrite coll_insert_ne by exact E. exact Hhead.
    + destruct (bool_decide (instance definition = "Array")).
      * destruct Hsaved as (ids & _ & ->). apply doc_id_assign, Hattr.
      * subst saved. apply doc_id_assign, Hattr.
Qed.

Lemma createAssociation_links_child_witness :
  ∃ created,
    (createAssociation Examples.tagging "Parent" (VNum 1) "tags"
       (VObj [("value", VNum 40)]) None (quiet Examples.tagging_store)).1
    = Resolved (VObj created) ∧
    truthy (doc_id created) = true.
Proof.
  destruct (createAssociation_links_child Examples.tagging "Parent" (VNum 1) "tags"
              (VObj [("value", VNum 40)]) None (quiet Examples.tagging_store)
              (createAssociation Examples.tagging "Parent" (VNum 1) "tags"
                 (VObj [("value", VNum 40)]) None (quiet Examples.tagging_store)).2
              (VObj [("value", VNum 40); ("_id", VNum 31)]) eq_refl eq_refl)
    as (Model & childModel & definition & childModelName & record & saved & created & H).
  cbv zeta in H. destruct H as (_ & _ & _ & _ & _ & _ & Hchild & Hid & _).
  exists created. split; [rewrite <- Hchild; reflexivity | exact Hid].
Defined.

(** ** updateAssociation *)



Lemma update_first_split (q : Value) (fs : list (string * Value)) (docs : list Doc)
  (d : Doc) :
  head (find_docs q docs) = Some d →
  ∃ l1 l2, docs = l1 ++ d :: l2 ∧ update_first q fs docs = l1 ++ set_fields fs d :: l2 ∧
           find_docs q l1 = [] ∧ matches q d = true.
Proof.
  unfold find_docs. induction docs as [| d0 docs IH]; [discriminate |].
  rewrite filter_cons. simpl. destruct (matches q d0) eqn:E.
  - destruct (decide (Is_true true)) as [_ | H]; [| destruct H; exact I].
    intros [= <-]. exists [], docs.
    split; [reflexivity |]. split; [reflexivity |]. split; [reflexivity | exact E].
  - destruct (decide (Is_true false)) as [[] | _]. intros H.
    destruct (IH H) as (l1 & l2 & -> & -> & Hl1 & Hd). exists (d0 :: l1), l2.
    split; [reflexivity |]. split; [reflexivity |]. split; [| exact Hd].
    rewrite filter_cons, Hl1, E.
    destruct (decide (Is_true false)) as [[] | _]. reflexivity.
Qed.






(** ** update on a filter *)

Section ListFacts.
Context {A B : Type}.

Lemma filter_ext_in (P Q : A → Prop) `{!∀ x, Decision (P x), !∀ x, Decision (Q x)}
  (l : list A) :
  (∀ x, x ∈ l → (P x ↔ Q x)) → filter P l = filter Q l.
Proof.
  induction l as [| x l IH]; intros Hext; [reflexivity |].
  rewrite !filter_cons.
  assert (filter P l = filter Q l) as ->.
  { apply IH. intros y Hy. apply Hext. right. exact Hy. }
  destruct (decide (P x)) as [HP | HP], (decide (Q x)) as [HQ | HQ];
    try reflexivity; exfalso; apply (Hext x) in HP || apply HP, (Hext x);
    try left; tauto.
Qed.

Lemma NoDup_fmap_inj_on (f : A → B) (l : list A) (x y : A) :
  NoDup (f <$> l) → x ∈ l → y ∈ l → f x = f y → x = y.
Proof.
  induction l as [| z l IH]; intros Hnd Hx Hy Hf; [inversion Hx |].
  rewrite fmap_cons in Hnd. apply NoDup_cons in Hnd as [Hz Hnd].
  apply elem_of_cons in Hx as [-> | Hx]; apply elem_of_cons in Hy as [-> | Hy].
  - reflexivity.
  - exfalso. apply Hz. rewrite Hf. apply list_elem_of_fmap_2, Hy.
  - exfalso. apply Hz. rewrite <- Hf. apply list_elem_of_fmap_2, Hx.
  - apply IH; assumption.
Qed.

Lemma filter_elem_of_sublist `{!EqDecision A} (k l : list A) :
  k `sublist_of` l → NoDup l → filter (λ x, x ∈ k) l = k.
Proof.
  induction 1 as [| x k l Hsub IH | x k l Hsub IH]; intros Hnd; [reflexivity | |];
    apply NoDup_cons in Hnd as [Hx Hnd].
  - rewrite filter_cons_True by left. f_equal.
    transitivity (filter (λ y, y ∈ k) l); [| apply IH, Hnd].
    apply filter_ext_in. intros y Hy. rewrite elem_of_cons. split; [| tauto].
    intros [-> | H]; [contradiction | exact H].
  - rewrite filter_cons_False; [apply IH, Hnd |].
    intros Hin. apply Hx. apply (sublist_subseteq _ _ Hsub), Hin.
Qed.
End ListFacts.

Lemma matches_id_in (l : list Value) (d : Doc) :
  matches (id_in (VArr l)) d = bool_decide (doc_id d ∈ castFor "_id" <$> l).
Proof. unfold matches, id_in, match_cond. simpl. apply andb_true_r. Qed.

Lemma cast_projected (sel : list Doc) :
  VUndefined ∉ doc_id <$> sel →
  castFor "_id" <$> (VObj <$> (project_id <$> sel)) = doc_id <$> sel.
Proof.
  induction sel as [| d sel IH]; intros Hdef; [reflexivity |].
  rewrite !fmap_cons in *. apply not_elem_of_cons in Hdef as [Hd Hdef].
  rewrite (IH Hdef). f_equal.
  unfold castFor, project_id, castId. simpl.
  rewrite bool_decide_eq_false_2 by congruence. reflexivity.
Qed.

(** On a well-formed collection, the filter [{ _id: { $in: ids } }] built
    from the projected documents of a selection matches exactly the
    selected documents. *)
Lemma matches_selected (docs sel : list Doc) (d : Doc) :
  wf_collection docs → sel `sublist_of` docs → d ∈ docs →
  Is_true (matches (id_in (VArr (VObj <$> (project_id <$> sel)))) d) ↔ d ∈ sel.
Proof.
  intros [Hnd Hdef] Hsub Hd.
  assert (VUndefined ∉ doc_id <$> sel) as Hdef'.
  { intros Hin. apply Hdef. apply list_elem_of_fmap in Hin as (x & Hx & Hin).
    rewrite Hx. apply list_elem_of_fmap_2, (sublist_subseteq _ _ Hsub), Hin. }
  rewrite matches_id_in, cast_projected by exact Hdef'.
  rewrite bool_decide_spec. split.
  - intros Hin. apply list_elem_of_fmap in Hin as (x & Hx & Hin).
    assert (d = x) as ->; [| exact Hin].
    apply (NoDup_fmap_inj_on doc_id docs); try assumption.
    apply (sublist_subseteq _ _ Hsub), Hin.
  - apply list_elem_of_fmap_2.
Qed.

Lemma selected_sublist (limit : option Z) (q : Value) (docs : list Doc) :
  limited limit (find_docs q docs) `sublist_of` docs.
Proof.
  transitivity (find_docs q docs); [| apply sublist_filter].
  unfold limited. destruct limit; [apply sublist_take | reflexivity].
Qed.

(** C5 (as the code has it): on a filter, [update] first selects the
    primary keys of the matching records, at most [defaultLimit] of them
    when one is configured, then issues one update by
    [{ _id: { $in: ids } }] over that id set, without [multi], then reads
    the same ids again.  On a well-formed collection it resolves to the
    records selected before the update, whether or not they still match
    the filter, but the values are applied to the first of them alone:
    the others come back, and stay in the store, as they were. *)
Theorem update_filter_first_selected_only (this : Service) (modelName : string)
  (Model : ModelHandle) (cfs vfs : list (string * Value)) (options : option Options)
  (w : World) (d0 : Doc) (rest : list Doc) :
  _getModel this modelName = Some Model →
  pending w = [] →
  let m := collection Model in
  let docs := coll (store w) m in
  let limit := query_limit this options in
  let selected := limited limit (find_docs (VObj cfs) docs) in
  let ids := VArr (VObj <$> (project_id <$> selected)) in
  wf_collection docs →
  selected = d0 :: rest →
  id_kept vfs d0 = true →
  ∃ l1 l2,
    docs = l1 ++ d0 :: l2 ∧
    update this modelName (VObj cfs) (VObj vfs) options w
    = (Resolved (VArr (VObj <$> (set_fields vfs d0 :: rest))),
       {| store := <[m := l1 ++ set_fields vfs d0 :: l2]> (store w);
          calls := calls w ++ [CFind m (VObj cfs) true limit;
                               CUpdate m (id_in ids) (VObj vfs);
                               CFind m (id_in ids) false None];
          pending := [] |}).
Proof.
  intros HM Hq m docs limit selected ids Hwf Hsel Hkept.
  assert (selected `sublist_of` docs) as Hsub by apply selected_sublist.
  assert (find_docs (id_in ids) docs = selected) as Hfound.
  { unfold find_docs. transitivity (filter (λ d, d ∈ selected) docs).
    - apply filter_ext_in. intros d Hd.
      apply (matches_selected docs selected d Hwf Hsub Hd).
    - apply filter_elem_of_sublist; [exact Hsub |]. apply (NoDup_fmap_1 doc_id), Hwf. }
  assert (head (find_docs (id_in ids) docs) = Some d0) as Hhead
    by (rewrite Hfound, Hsel; reflexivity).
  destruct (update_first_split _ vfs _ _ Hhead) as (l1 & l2 & Hdocs & Hupd & Hl1 & Hd0).
  apply bool_decide_eq_true_1 in Hkept.
  assert (update_docs (id_in ids) (VObj vfs) docs = Some (l1 ++ set_fields vfs d0 :: l2))
    as Hupdate.
  { unfold update_docs, id_kept. rewrite Hhead, Hupd, bool_decide_eq_true_2 by exact Hkept.
    reflexivity. }
  assert (find_docs (id_in ids) (l1 ++ set_fields vfs d0 :: l2) = set_fields vfs d0 :: rest)
    as Hreread.
  { rewrite Hdocs, Hsel in Hfound. unfold find_docs in *.
    rewrite filter_app, filter_cons, Hl1 in Hfound |- *.
    assert (matches (id_in ids) (set_fields vfs d0) = true) as ->.
    { unfold ids in *. rewrite matches_id_in in Hd0 |- *. rewrite Hkept. exact Hd0. }
    rewrite Hd0 in Hfound. cbn [Is_true] in *.
    destruct (decide True) as [_ | []]; [| exact I].
    cbn [app] in *. congruence. }
  exists l1, l2. split; [exact Hdocs |].
  unfold update. rewrite HM. cbn [isPlainObject on_model]. unfold andThen.
  rewrite (call_quiet _ _ Hq). cbn -[find_docs limited settle call].
  fold m docs limit selected ids.
  rewrite call_quiet by reflexivity. cbn -[find_docs limited update_docs].
  fold m docs. rewrite Hupdate. cbn [fst snd limited].
  rewrite coll_insert, Hreread, <- !app_assoc. reflexivity.
Qed.

Lemma tags_well_formed : wf_collection (coll Examples.tagging_store "tags").
Proof. split; apply (bool_decide_unpack _); reflexivity. Qed.

(** Three tags match the empty filter and the configured [defaultLimit]
    is 2: tags 10 and 20 are selected and returned, and tag 10 alone
    carries the new status; tag 30 is outside the selection. *)
Lemma update_filter_first_selected_only_witness :
  update packed "Tag" (VObj []) (VObj [("status", VStr "x")]) None
    (quiet Examples.tagging_store)
  = (Resolved (VArr [VObj [("_id", VNum 10); ("value", VNum 10); ("status", VStr "x")];
                     VObj [("_id", VNum 20); ("value", VNum 20)]]),
     {| store :=
          <["tags" := [[("_id", VNum 10); ("value", VNum 10); ("status", VStr "x")];
                       Examples.tag 20; Examples.tag 30]]> Examples.tagging_store;
        calls :=
          [CFind "tags" (VObj []) true (Some 2);
           CUpdate "tags" (id_in (VArr [VObj [("_id", VNum 10)]; VObj [("_id", VNum 20)]]))
             (VObj [("status", VStr "x")]);
           CFind "tags" (id_in (VArr [VObj [("_id", VNum 10)]; VObj [("_id", VNum 20)]]))
             false None];
        pending := [] |}).
Proof.
  destruct (update_filter_first_selected_only packed "Tag" Examples.Tag []
              [("status", VStr "x")] None (quiet Examples.tagging_store)
              (Examples.tag 10) [Examples.tag 20]
              eq_refl eq_refl tags_well_formed eq_refl eq_refl)
    as (l1 & l2 & Hdocs & Hrun).
  destruct l1 as [| d l1]; [| exfalso].
  - injection Hdocs as <-. exact Hrun.
  - injection Hdocs as <- Hdocs.
    destruct l1 as [| d l1]; [discriminate Hdocs |]. injection Hdocs as <- Hdocs.
    destruct l1 as [| d l1]; [discriminate Hdocs |]. injection Hdocs as <- Hdocs.
    destruct l1; discriminate Hdocs.
Defined.

(** ** The preamble of the association operations *)

(** X1: with a registered parent model and a falsy [parentId]
    (undefined, null, 0, the empty string), each of the four association
    operations is rejected with 'No parentId provided' before the
    reference is looked at and before any call to the store. *)
Theorem association_missing_parentId (this : Service) (parentModelName : string)
  (Model : ModelHandle) (parentId : Value) (childAttributeName : string) (w : World) :
  _getModel this parentModelName = Some Model →
  truthy parentId = false →
  (∀ values options,
      createAssociation this parentModelName parentId childAttributeName values options w
      = (Rejected NoParentId, w)) ∧
  (∀ criteria options,
      findAssociation this parentModelName parentId childAttributeName criteria options w
      = (Rejected NoParentId, w)) ∧
  (∀ criteria values options,
      updateAssociation this parentModelName parentId childAttributeName criteria values
        options w = (Rejected NoParentId, w)) ∧
  (∀ criteria options,
      destroyAssociation this parentModelName parentId childAttributeName criteria options w
      = (Rejected NoParentId, w)).
Proof.
  intros HM Hid.
  unfold createAssociation, findAssociation, updateAssociation, destroyAssociation.
  rewrite HM, Hid. repeat split; intros; reflexivity.
Qed.

Lemma association_missing_parentId_witness :
  destroyAssociation Examples.blog "Post" (VNum 0) "comments" (VObj []) None
    (quiet Examples.blog_store)
  = (Rejected NoParentId, quiet Examples.blog_store).
Proof.
  apply (association_missing_parentId Examples.blog "Post" Examples.Post (VNum 0)
           "comments" (quiet Examples.blog_store)); reflexivity.
Defined.

Lemma reference_name_unresolved (Model : ModelHandle) (childAttributeName : string) :
  (∀ definition s,
      schema_paths Model !! childAttributeName = Some definition →
      options_ref definition = VStr s → s = "") →
  _getReferenceModelName Model childAttributeName = None ∨
  _getReferenceModelName Model childAttributeName = Some "".
Proof.
  intros H. unfold _getReferenceModelName, _getReferenceDefinition.
  destruct (schema_paths Model !! childAttributeName) as [definition |] eqn:E; [| left; reflexivity].
  destruct (options_ref definition) eqn:R; try (left; reflexivity).
  right. rewrite (H definition s eq_refl R). reflexivity.
Qed.

(** X2: with a registered parent model and a truthy [parentId], when
    the child attribute is no path of the parent's schema, or a path
    whose [options.ref] is not a non-empty string, each of the four
    association operations is rejected with 'No such reference exist'
    and no call reaches the store. *)
Theorem association_unresolved_reference (this : Service) (parentModelName : string)
  (Model : ModelHandle) (parentId : Value) (childAttributeName : string) (w : World) :
  _getModel this parentModelName = Some Model →
  truthy parentId = true →
  (∀ definition s,
      schema_paths Model !! childAttributeName = Some definition →
      options_ref definition = VStr s → s = "") →
  (∀ values options,
      createAssociation this parentModelName parentId childAttributeName values options w
      = (Rejected NoSuchReference, w)) ∧
  (∀ criteria options,
      findAssociation this parentModelName parentId childAttributeName criteria options w
      = (Rejected NoSuchReference, w)) ∧
  (∀ criteria values options,
      updateAssociation this parentModelName parentId childAttributeName criteria values
        options w = (Rejected NoSuchReference, w)) ∧
  (∀ criteria options,
      destroyAssociation this parentModelName parentId childAttributeName criteria options w
      = (Rejected NoSuchReference, w)).
Proof.
  intros HM Hid Href.
  unfold createAssociation, findAssociation, updateAssociation, destroyAssociation.
  rewrite HM, Hid.
  destruct (reference_name_unresolved Model childAttributeName Href) as [-> | ->];
    repeat split; intros; reflexivity.
Qed.

Lemma association_unresolved_reference_witness :
  createAssociation Examples.blog "Post" (VNum 1) "title" (VObj []) None
    (quiet Examples.blog_store)
  = (Rejected NoSuchReference, quiet Examples.blog_store).
Proof.
  apply (association_unresolved_reference Examples.blog "Post" Examples.Post (VNum 1)
           "title" (quiet Examples.blog_store)); [reflexivity | reflexivity |].
  intros definition s Hpath. exfalso. revert Hpath.
  change (schema_paths Examples.Post !! "title") with (@None SchemaPath). discriminate.
Defined.

(** X3: [findAssociation] looks the child model up in [app.orm] alone.
    A child model that is registered only in [packs.mongoose.orm], and
    that [_getModel] (hence every other operation) resolves, makes
    [findAssociation] reject with 'No such reference exist', without a
    call to the store. *)
Theorem findAssociation_child_outside_app_orm (this : Service) (parentModelName : string)
  (Model childModel : ModelHandle) (parentId : Value) (childAttributeName : string)
  (childModelName : string) (criteria : Value) (options : option Options) (w : World) :
  _getModel this parentModelName = Some Model →
  truthy parentId = true →
  _getReferenceModelName Model childAttributeName = Some childModelName →
  app_orm this !! childModelName = None →
  packs_mongoose_orm this !! childModelName = Some (Registered childModel) →
  _getModel this childModelName = Some childModel ∧
  findAssociation this parentModelName parentId childAttributeName criteria options w
  = (Rejected NoSuchReference, w).
Proof.
  intros HM Hid Hname Happ Hpack. split.
  - unfold _getModel. rewrite Happ. exact Hpack.
  - unfold findAssociation. rewrite HM, Hid, Hname, Happ.
    destruct childModelName; reflexivity.
Qed.

Lemma findAssociation_child_outside_app_orm_witness :
  (create packed "Tag" (VObj [("value", VNum 1)]) None (quiet Examples.tagging_store)).1
  = Resolved (VObj [("value", VNum 1); ("_id", VNum 31)]) ∧
  findAssociation packed "Parent" (VNum 1) "tags" (VObj []) None
    (quiet Examples.tagging_store)
  = (Rejected NoSuchReference, quiet Examples.tagging_store).
Proof.
  split; [reflexivity |].
  apply (findAssociation_child_outside_app_orm packed "Parent" Examples.Parent
           Examples.Tag (VNum 1) "tags" "Tag" (VObj []) None
           (quiet Examples.tagging_store)); reflexivity.
Defined.

(** ** find *)

(** X4: on a registered model [find] is one call to the store and that
    call is a read, fixed by the criteria and the options alone: whatever
    the world, the outcome of [find] is the outcome of that read, the
    read is the only call it adds to the log, and the store it leaves is
    the one the read met. *)
Theorem find_reads_once (this : Service) (modelName : string) (Model : ModelHandle)
  (criteria : Value) (options : option Options) :
  _getModel this modelName = Some Model →
  ∃ c,
    is_read c ∧
    ∀ w, find this modelName criteria options w = call c w ∧
         calls (find this modelName criteria options w).2 = calls w ++ [c] ∧
         store (find this modelName criteria options w).2 = landed w.
Proof.
  intros HM. unfold find. rewrite HM. cbn [on_model].
  destruct (negb (isPlainObject criteria) || findOne (default no_options options));
    eexists;
    (split; [| intros w; split; [reflexivity | rewrite call_eq; split; reflexivity]]);
    exact I.
Qed.

Lemma find_reads_once_witness :
  ∃ c,
    is_read c ∧
    ∀ w, find Examples.tagging "Tag" (VObj [("value", VNum 20)]) None w = call c w ∧
         calls (find Examples.tagging "Tag" (VObj [("value", VNum 20)]) None w).2
         = calls w ++ [c] ∧
         store (find Examples.tagging "Tag" (VObj [("value", VNum 20)]) None w).2
         = landed w.
Proof.
  apply (find_reads_once Examples.tagging "Tag" Examples.Tag (VObj [("value", VNum 20)])
           None).
  reflexivity.
Defined.

Lemma limited_length (n : Z) (docs : list Doc) :
  (length (limited (Some n) docs) ≤ Z.abs_nat n)%nat.
Proof. unfold limited. rewrite length_take. lia. Qed.

(** X5: [find] with a filter object and no [findOne] resolves to an
    array of documents of the model's collection, in collection order,
    each of which matches the filter; with a limit [n] in force it holds
    at most [|n|] of them, and without one it holds every match. *)
Theorem find_filter_results (this : Service) (modelName : string) (Model : ModelHandle)
  (fs : list (string * Value)) (options : option Options) (w : World) :
  _getModel this modelName = Some Model →
  findOne (default no_options options) = false →
  pending w = [] →
  ∃ found,
    (find this modelName (VObj fs) options w).1 = Resolved (VArr (VObj <$> found)) ∧
    found `sublist_of` coll (store w) (collection Model) ∧
    Forall (λ d, matches (VObj fs) d = true) found ∧
    (∀ n, query_limit this options = Some n → (length found ≤ Z.abs_nat n)%nat) ∧
    (query_limit this options = None →
     found = find_docs (VObj fs) (coll (store w) (collection Model))).
Proof.
  intros HM Hone Hq. unfold find. rewrite HM, Hone. cbn [isPlainObject negb orb on_model].
  rewrite (call_quiet _ _ Hq). cbn -[find_docs limited].
  exists (limited (query_limit this options)
            (find_docs (VObj fs) (coll (store w) (collection Model)))).
  split; [reflexivity |]. split; [apply selected_sublist |]. split; [| split].
  - apply Forall_forall. intros d Hd.
    assert (d ∈ find_docs (VObj fs) (coll (store w) (collection Model))) as Hin.
    { revert Hd. unfold limited. destruct (query_limit this options); [| tauto].
      apply (sublist_subseteq _ _ (sublist_take _ _)). }
    apply list_elem_of_filter in Hin as [Hm _]. apply Is_true_true_1, Hm.
  - intros n ->. apply limited_length.
  - intros ->. reflexivity.
Qed.

Lemma find_filter_results_witness :
  ∃ found,
    (find packed "Tag" (VObj []) None (quiet Examples.tagging_store)).1
    = Resolved (VArr (VObj <$> found)) ∧
    (length found ≤ 2)%nat.
Proof.
  destruct (find_filter_results packed "Tag" Examples.Tag [] None
              (quiet Examples.tagging_store) eq_refl eq_refl eq_refl)
    as (found & Hres & _ & _ & Hlen & _).
  exists found. split; [exact Hres | exact (Hlen 2 eq_refl)].
Defined.

(** X6: which limit a filter query gets.  A non-zero
    [options.defaultLimit] is the limit, whatever the configuration says;
    [options.defaultLimit = 0] lifts the limit, even a configured one;
    without [options.defaultLimit] the configured limit applies when it
    is non-zero. *)
Theorem find_limit_precedence (this : Service) (modelName : string) (Model : ModelHandle)
  (fs : list (string * Value)) (w : World) :
  _getModel this modelName = Some Model →
  (∀ n, n ≠ 0 →
     find this modelName (VObj fs) (Some {| findOne := false; defaultLimit := Some n |}) w
     = call (CFind (collection Model) (VObj fs) false (Some n)) w) ∧
  find this modelName (VObj fs) (Some {| findOne := false; defaultLimit := Some 0 |}) w
  = call (CFind (collection Model) (VObj fs) false None) w ∧
  (∀ n, n ≠ 0 →
     config_models_options this ≫= defaultLimit = Some n →
     find this modelName (VObj fs) None w
     = call (CFind (collection Model) (VObj fs) false (Some n)) w ∧
     find this modelName (VObj fs) (Some no_options) w
     = call (CFind (collection Model) (VObj fs) false (Some n)) w).
Proof.
  intros HM. unfold find, query_limit, modelOptions_defaultLimit. rewrite HM.
  cbn -[call]. split; [| split].
  - intros n Hn. rewrite (proj2 (Z.eqb_neq n 0) Hn). reflexivity.
  - reflexivity.
  - intros n Hn ->. rewrite (proj2 (Z.eqb_neq n 0) Hn). split; reflexivity.
Qed.

Lemma find_limit_precedence_witness :
  find packed "Tag" (VObj []) (Some {| findOne := false; defaultLimit := Some 0 |})
    (quiet Examples.tagging_store)
  = call (CFind "tags" (VObj []) false None) (quiet Examples.tagging_store).
Proof.
  apply (find_limit_precedence packed "Tag" Examples.Tag [] (quiet Examples.tagging_store)).
  reflexivity.
Defined.

(** ** update *)

Lemma update_first_none (q : Value) (fs : list (string * Value)) (docs : list Doc) :
  find_docs q docs = [] → update_first q fs docs = docs.
Proof.
  unfold find_docs. induction docs as [| d docs IH]; [reflexivity |].
  rewrite filter_cons. simpl. destruct (matches q d).
  - destruct (decide (Is_true true)) as [_ | H]; [discriminate | destruct H; exact I].
  - destruct (decide (Is_true false)) as [[] | _]. intros H. rewrite (IH H). reflexivity.
Qed.

Lemma update_docs_first (q : Value) (vfs : list (string * Value)) (docs : list Doc) :
  forallb (id_kept vfs) (find_docs q docs) = true →
  update_docs q (VObj vfs) docs = Some (update_first q vfs docs).
Proof.
  intros Hkept. unfold update_docs.
  destruct (find_docs q docs) as [| d l] eqn:Hfound; cbn [head].
  - rewrite (update_first_none _ _ _ Hfound). reflexivity.
  - cbn [forallb] in Hkept. apply andb_true_iff in Hkept as [-> _]. reflexivity.
Qed.

Lemma coll_unchanged (s : Store) (m m' : string) :
  coll (<[m := coll s m]> s) m' = coll s m'.
Proof.
  destruct (decide (m = m')) as [<- | Hne];
    [apply coll_insert | apply coll_insert_ne, Hne].
Qed.

(** X7: [update] with a primary key (any criteria that is not a plain
    object) updates by [{ _id: criteria }], then reads the record back
    with [findOne]: it resolves to the record of that key with the values
    applied, and to null, with every document as it was, when no record
    has the key. *)
Theorem update_scalar_record (this : Service) (modelName : string) (Model : ModelHandle)
  (criteria : Value) (vfs : list (string * Value)) (options : option Options)
  (w : World) :
  _getModel this modelName = Some Model →
  isPlainObject criteria = false →
  pending w = [] →
  let m := collection Model in
  let docs := coll (store w) m in
  let updated := update_first (by_id criteria) vfs docs in
  forallb (id_kept vfs) (find_docs (by_id criteria) docs) = true →
  update this modelName criteria (VObj vfs) options w
  = (Resolved (from_option VObj VNull
                 (set_fields vfs <$> head (find_docs (by_id criteria) docs))),
     {| store := <[m := updated]> (store w);
        calls := calls w ++ [CUpdate m (by_id criteria) (VObj vfs);
                             CFindOne m (by_id criteria)];
        pending := [] |}) ∧
  (find_docs (by_id criteria) docs = [] → updated = docs).
Proof.
  intros HM Hplain Hq m docs updated Hkept.
  assert (head (find_docs (by_id criteria) updated)
          = set_fields vfs <$> head (find_docs (by_id criteria) docs)) as Hhead.
  { unfold updated. destruct (head (find_docs (by_id criteria) docs)) as [d |] eqn:Hd.
    - destruct (update_first_split _ vfs _ _ Hd) as (l1 & l2 & _ & -> & Hl1 & Hmatch).
      assert (id_kept vfs d = true) as Hid.
      { destruct (find_docs (by_id criteria) docs) as [| d' l]; [discriminate |].
        injection Hd as ->. cbn [forallb] in Hkept.
        apply andb_true_iff in Hkept as [Hkept _]. exact Hkept. }
      apply bool_decide_eq_true_1 in Hid.
      unfold find_docs in *. rewrite filter_app, Hl1, filter_cons.
      rewrite (matches_by_id_doc_id criteria _ d Hid), Hmatch.
      destruct (decide (Is_true true)) as [_ | H]; [reflexivity | destruct H; exact I].
    - apply head_None in Hd. rewrite (update_first_none _ _ _ Hd), Hd. reflexivity. }
  split.
  - unfold update. rewrite HM, Hplain. cbn [on_model]. unfold andThen.
    rewrite (call_quiet _ _ Hq). cbn -[find_docs update_docs].
    fold m docs. rewrite (update_docs_first _ _ _ Hkept). fold updated.
    cbn -[find_docs]. rewrite coll_insert, Hhead, <- app_assoc. reflexivity.
  - apply update_first_none.
Qed.

(** Tag 20 exists: the update by its key returns it with the new value,
    and the store holds it in place of the old one. *)
Lemma update_scalar_record_witness :
  update Examples.tagging "Tag" (VNum 20) (VObj [("value", VNum 0)]) None
    (quiet Examples.tagging_store)
  = (Resolved (VObj [("_id", VNum 20); ("value", VNum 0)]),
     {| store :=
          <["tags" := [Examples.tag 10; [("_id", VNum 20); ("value", VNum 0)];
                       Examples.tag 30]]> Examples.tagging_store;
        calls := [CUpdate "tags" (by_id (VNum 20)) (VObj [("value", VNum 0)]);
                  CFindOne "tags" (by_id (VNum 20))];
        pending := [] |}).
Proof.
  apply (proj1 (update_scalar_record Examples.tagging "Tag" Examples.Tag (VNum 20)
                  [("value", VNum 0)] None (quiet Examples.tagging_store)
                  eq_refl eq_refl eq_refl eq_refl)).
Defined.

Lemma matches_id_in_nil (d : Doc) : matches (id_in (VArr [])) d = false.
Proof. rewrite matches_id_in. apply bool_decide_eq_false_2. inversion 1. Qed.

Lemma find_docs_none (q : Value) (docs : list Doc) :
  (∀ d, d ∈ docs → matches q d = false) → find_docs q docs = [].
Proof.
  intros H. unfold find_docs. induction docs as [| d docs IH]; [reflexivity |].
  rewrite filter_cons_False.
  - apply IH. intros d' Hd'. apply H. right. exact Hd'.
  - rewrite (H d) by left. intros [].
Qed.

(** X8: when the filter selects no record (nothing matches), [update]
    still issues its three calls, with the empty id set, resolves to the
    empty array, and leaves every document of every collection as it
    was. *)
Theorem update_filter_no_match (this : Service) (modelName : string)
  (Model : ModelHandle) (cfs vfs : list (string * Value)) (options : option Options)
  (w : World) :
  _getModel this modelName = Some Model →
  pending w = [] →
  let m := collection Model in
  let limit := query_limit this options in
  limited limit (find_docs (VObj cfs) (coll (store w) m)) = [] →
  ∃ w',
    update this modelName (VObj cfs) (VObj vfs) options w = (Resolved (VArr []), w') ∧
    calls w' = calls w ++ [CFind m (VObj cfs) true limit;
                           CUpdate m (id_in (VArr [])) (VObj vfs);
                           CFind m (id_in (VArr [])) false None] ∧
    ∀ m', coll (store w') m' = coll (store w) m'.
Proof.
  intros HM Hq m limit Hnone.
  assert (find_docs (id_in (VArr [])) (coll (store w) m) = []) as Hempty
    by (apply find_docs_none; intros d _; apply matches_id_in_nil).
  assert (update_docs (id_in (VArr [])) (VObj vfs) (coll (store w) m)
          = Some (coll (store w) m)) as Hupd.
  { unfold update_docs. rewrite Hempty. reflexivity. }
  eexists. split; [| split].
  - unfold update. rewrite HM. cbn [isPlainObject on_model]. unfold andThen.
    rewrite (call_quiet _ _ Hq). cbn -[find_docs limited update_docs settle call].
    fold m limit. rewrite Hnone. cbn -[find_docs update_docs call].
    rewrite call_quiet by reflexivity. cbn -[find_docs update_docs].
    rewrite Hupd. cbn -[find_docs coll]. rewrite coll_insert, Hempty.
    reflexivity.
  - cbn. rewrite <- !app_assoc. reflexivity.
  - intros m'. cbn. apply coll_unchanged.
Qed.

Lemma update_filter_no_match_witness :
  ∃ w',
    update Examples.tagging "Tag" (VObj [("value", VNum 99)]) (VObj [("value", VNum 0)])
      None (quiet Examples.tagging_store) = (Resolved (VArr []), w') ∧
    coll (store w') "tags" = coll Examples.tagging_store "tags".
Proof.
  destruct (update_filter_no_match Examples.tagging "Tag" Examples.Tag
              [("value", VNum 99)] [("value", VNum 0)] None
              (quiet Examples.tagging_store) eq_refl eq_refl eq_refl)
    as (w' & Hres & _ & Hcoll).
  exists w'. split; [exact Hres | apply Hcoll].
Defined.

(** ** destroy and create, followed by find *)

Lemma find_after_remove (q : Value) (docs : list Doc) :
  find_docs q (remove_docs q docs) = [].
Proof.
  apply find_docs_none. intros d Hd. unfold remove_docs in Hd.
  apply list_elem_of_filter in Hd as [Hd _].
  destruct (matches q d); [destruct Hd; exact I | reflexivity].
Qed.

Lemma destroy_filter (this : Service) (modelName : string) (Model : ModelHandle)
  (fs : list (string * Value)) (options : option Options) (w : World) :
  _getModel this modelName = Some Model →
  pending w = [] →
  let m := collection Model in
  destroy this modelName (VObj fs) options w
  = (Resolved (VArr (VObj <$> find_docs (VObj fs) (coll (store w) m))),
     {| store := <[m := remove_docs (VObj fs) (coll (store w) m)]> (store w);
        calls := calls w ++ [CFind m (VObj fs) false None; CRemove m (VObj fs)];
        pending := [] |}).
Proof.
  intros HM Hq m. unfold destroy. rewrite HM. cbn [isPlainObject on_model]. unfold andThen.
  rewrite !call_eq. cbn -[find_docs remove_docs]. unfold landed. rewrite Hq.
  cbn -[find_docs remove_docs]. rewrite <- app_assoc. reflexivity.
Qed.

(** X9: after a [destroy], a [find] with the same criteria finds
    nothing: the empty array for a filter (read without [findOne]), null
    for a primary key. *)
Theorem destroy_then_find (this : Service) (modelName : string) (Model : ModelHandle)
  (criteria : Value) (options options' : option Options) (w : World) :
  _getModel this modelName = Some Model →
  pending w = [] →
  (isPlainObject criteria = true → findOne (default no_options options') = false) →
  (find this modelName criteria options'
     (destroy this modelName criteria options w).2).1
  = Resolved (if isPlainObject criteria then VArr [] else VNull).
Proof.
  intros HM Hq Hone. destruct criteria as [| | b | n | s | xs | fs].
  7: { rewrite (destroy_filter this modelName Model fs options w HM Hq).
       unfold find. rewrite HM, (Hone eq_refl). cbn [isPlainObject negb orb snd on_model].
       rewrite call_quiet by reflexivity. cbn -[find_docs remove_docs limited].
       rewrite coll_insert, find_after_remove.
       destruct (query_limit this options'); [unfold limited; rewrite take_nil |];
         reflexivity. }
  all: match goal with
       | |- context [destroy _ _ ?c _ _] =>
           rewrite (destroy_scalar this modelName Model c options w HM eq_refl Hq)
       end;
    unfold find; rewrite HM; cbn [isPlainObject negb orb snd on_model];
    rewrite call_quiet by reflexivity; cbn -[find_docs remove_docs];
    rewrite coll_insert, find_after_remove; reflexivity.
Qed.

Lemma destroy_then_find_witness :
  (find Examples.tagging "Tag" (VNum 20) None
     (destroy Examples.tagging "Tag" (VNum 20) None (quiet Examples.tagging_store)).2).1
  = Resolved VNull.
Proof.
  apply (destroy_then_find Examples.tagging "Tag" Examples.Tag (VNum 20) None None
           (quiet Examples.tagging_store)); [reflexivity | reflexivity | discriminate].
Defined.

(** The store answers a single insert with the stored document: it goes
    last in the collection, under a defined [_id] no other document of
    the collection has. *)
Lemma create_document (m : string) (values child : Value) (s s1 : Store) :
  exec (CCreate m values) s = (Resolved child, s1) →
  getField child "_id" ≠ VUndefined →
  ∃ d, child = VObj d ∧ s1 = <[m := coll s m ++ [d]]> s ∧
       doc_id d ∉ doc_id <$> coll s m.
Proof.
  intros Hexec Hid. unfold exec in Hexec.
  assert (∀ v, insert_one v (coll s m) = None ∨
               ∃ d, insert_one v (coll s m) = Some (d, coll s m ++ [d]) ∧
                    doc_id d ∉ doc_id <$> coll s m) as Hone.
  { intros v. unfold insert_one. destruct v; auto.
    match goal with |- context [bool_decide (?x ∈ ?l)] =>
      destruct (bool_decide (x ∈ l)) eqn:E end; [auto |].
    right. eexists. split; [reflexivity |].
    apply bool_decide_eq_false_1 in E. unfold doc_id at 1.
    rewrite lookup_assign_eq. exact E. }
  destruct values as [| | b | n | str | xs | fields]; cbn -[insert_one insert_many] in Hexec;
    try (match type of Hexec with
         | context [insert_one ?v _] => destruct (Hone v) as [E | (d & E & Hd)]
         end;
         rewrite E in Hexec; [discriminate |];
         injection Hexec as <- <-; exists d; repeat split; assumption).
  destruct (insert_many xs (coll s m)) as [[ds |] docs]; [| discriminate].
  injection Hexec as <- <-. contradiction Hid. reflexivity.
Qed.

(** X10: a record that [create] returns with a scalar primary key is
    what [find] by that key returns right after. *)
Theorem create_then_find (this : Service) (modelName : string) (values child : Value)
  (options options' : option Options) (w w1 : World) :
  pending w = [] →
  create this modelName values options w = (Resolved child, w1) →
  getField child "_id" ≠ VUndefined →
  isPlainObject (getField child "_id") = false →
  (find this modelName (getField child "_id") options' w1).1 = Resolved child.
Proof.
  intros Hq Hcreate Hdef Hplain. unfold create in Hcreate.
  destruct (_getModel this modelName) as [[Model | name] |] eqn:HM; [| | discriminate].
  2: { unfold create_inherited in Hcreate.
       destruct (bool_decide (name = "constructor")); [| discriminate].
       destruct values; discriminate. }
  rewrite (call_quiet _ _ Hq) in Hcreate.
  apply pair_equal_spec in Hcreate as [Hchild Hw1].
  destruct (exec (CCreate (collection Model) values) (store w)) as [r s1] eqn:Hexec.
  cbn [fst snd] in Hchild, Hw1. subst r.
  destruct (create_document _ _ _ _ _ Hexec Hdef) as (d & -> & -> & Hfresh).
  cbn [getField] in Hplain, Hdef |- *. fold (doc_id d) in Hplain, Hdef |- *.
  unfold find. rewrite HM, Hplain. cbn [negb orb on_model]. subst w1.
  rewrite call_quiet by reflexivity. cbn -[find_docs].
  rewrite coll_insert. unfold find_docs. rewrite filter_app.
  assert (castId (doc_id d) = doc_id d) as Hcast.
  { destruct (doc_id d); try reflexivity. discriminate. }
  assert (getField (doc_id d) "$in" = VUndefined) as Hin.
  { destruct (doc_id d); try reflexivity. discriminate. }
  fold (find_docs (by_id (doc_id d)) (coll (store w) (collection Model))).
  rewrite find_docs_none.
  - rewrite filter_cons_True; [reflexivity |].
    rewrite matches_by_id, Hcast by exact Hin.
    rewrite bool_decide_eq_true_2; [exact I | reflexivity].
  - intros d' Hd'. rewrite matches_by_id, Hcast by exact Hin.
    apply bool_decide_eq_false_2. intros Heq. apply Hfresh. rewrite <- Heq.
    apply list_elem_of_fmap_2, Hd'.
Qed.

Lemma create_then_find_witness :
  (find Examples.tagging "Tag" (VNum 31) None
     (create Examples.tagging "Tag" (VObj [("value", VNum 40)]) None
        (quiet Examples.tagging_store)).2).1
  = Resolved (VObj [("value", VNum 40); ("_id", VNum 31)]).
Proof.
  apply (create_then_find Examples.tagging "Tag" (VObj [("value", VNum 40)])
           (VObj [("value", VNum 40); ("_id", VNum 31)]) None None
           (quiet Examples.tagging_store)
           (create Examples.tagging "Tag" (VObj [("value", VNum 40)]) None
              (quiet Examples.tagging_store)).2);
    [reflexivity | reflexivity | discriminate | reflexivity].
Defined.

(** ** createAssociation: when the parent is missing, when values are a batch *)

(** X11: when no record of the parent model has the given id,
    [createAssociation] is rejected with 'No parent record found' after
    the one [findOne] on the parent: no child is created and the store
    is as it was. *)
Theorem createAssociation_missing_parent (this : Service) (parentModelName : string)
  (Model : ModelHandle) (parentId : Value) (childAttributeName childModelName : string)
  (values : Value) (options : option Options) (w : World) :
  _getModel this parentModelName = Some Model →
  truthy parentId = true →
  _getReferenceModelName Model childAttributeName = Some childModelName →
  childModelName ≠ "" →
  pending w = [] →
  find_docs (by_id parentId) (coll (store w) (collection Model)) = [] →
  createAssociation this parentModelName parentId childAttributeName values options w
  = (Rejected NoParentRecord,
     {| store := store w;
        calls := calls w ++ [CFindOne (collection Model) (by_id parentId)];
        pending := [] |}).
Proof.
  intros HM Hid Hname Hne Hq Hnone. unfold createAssociation.
  rewrite HM, Hid, Hname. cbn [negb].
  destruct childModelName as [| a cn]; [congruence |].
  cbn [on_model]. unfold andThen. rewrite (call_quiet _ _ Hq). cbn -[find_docs].
  rewrite Hnone. reflexivity.
Qed.

Lemma createAssociation_missing_parent_witness :
  createAssociation Examples.tagging "Parent" (VNum 2) "tags" (VObj [("value", VNum 40)])
    None (quiet Examples.tagging_store)
  = (Rejected NoParentRecord,
     {| store := Examples.tagging_store;
        calls := [CFindOne "parents" (by_id (VNum 2))];
        pending := [] |}).
Proof.
  apply (createAssociation_missing_parent Examples.tagging "Parent" Examples.Parent
           (VNum 2) "tags" "Tag" (VObj [("value", VNum 40)]) None
           (quiet Examples.tagging_store));
    [reflexivity | reflexivity | reflexivity | discriminate | reflexivity | reflexivity].
Defined.

Lemma insert_many_app (vs : list Value) (docs docs' ds : list Doc) :
  insert_many vs docs = (Some ds, docs') → docs' = docs ++ ds.
Proof.
  revert docs docs' ds. induction vs as [| v vs IH]; intros docs docs' ds; simpl.
  - intros [= <- <-]. rewrite app_nil_r. reflexivity.
  - destruct (insert_one v docs) as [[d docs1] |] eqn:E; [| discriminate].
    destruct (insert_many vs docs1) as [[ds1 |] docs2] eqn:E2; [| discriminate].
    intros [= <- <-]. rewrite (IH _ _ _ E2).
    unfold insert_one in E. destruct v; try discriminate.
    match type of E with context [bool_decide ?P] => destruct (bool_decide P) end;
      [discriminate |].
    injection E as <- <-. rewrite <- app_assoc. reflexivity.
Qed.

(** X12: given an array of value sets (a batch), [createAssociation]
    has the children created but finds no [_id] on the array that comes
    back: it is rejected with 'No _id for child record' after the
    insert.  The new children stay in the store and the parent is never
    saved, so nothing refers to them. *)
Theorem createAssociation_batch_not_linked (this : Service) (parentModelName : string)
  (Model childModel : ModelHandle) (parentId : Value)
  (childAttributeName childModelName : string) (vs : list Value)
  (options : option Options) (record : Doc) (created docs' : list Doc) (w : World) :
  _getModel this parentModelName = Some Model →
  truthy parentId = true →
  _getReferenceModelName Model childAttributeName = Some childModelName →
  childModelName ≠ "" →
  _getModel this childModelName = Some childModel →
  pending w = [] →
  head (find_docs (by_id parentId) (coll (store w) (collection Model))) = Some record →
  insert_many vs (coll (store w) (collection childModel)) = (Some created, docs') →
  createAssociation this parentModelName parentId childAttributeName (VArr vs) options w
  = (Rejected NoChildId,
     {| store := <[collection childModel :=
                     coll (store w) (collection childModel) ++ created]> (store w);
        calls := calls w ++ [CFindOne (collection Model) (by_id parentId);
                             CCreate (collection childModel) (VArr vs)];
        pending := [] |}).
Proof.
  intros HM Hid Hname Hne HC Hq Hrec Hins. unfold createAssociation.
  rewrite HM, Hid, Hname. cbn [negb].
  destruct childModelName as [| a cn]; [congruence |].
  cbn [on_model]. unfold andThen at 1. rewrite (call_quiet _ _ Hq). cbn -[find_docs create].
  rewrite Hrec. cbn -[create]. unfold andThen, create. rewrite HC.
  rewrite call_quiet by reflexivity. cbn -[insert_many].
  rewrite Hins. cbn. rewrite (insert_many_app _ _ _ _ Hins), <- app_assoc. reflexivity.
Qed.

Lemma createAssociation_batch_not_linked_witness :
  createAssociation Examples.tagging "Parent" (VNum 1) "tags"
    (VArr [VObj [("value", VNum 40)]]) None (quiet Examples.tagging_store)
  = (Rejected NoChildId,
     {| store := <["tags" := coll Examples.tagging_store "tags"
                             ++ [[("value", VNum 40); ("_id", VNum 31)]]]>
                   Examples.tagging_store;
        calls := [CFindOne "parents" (by_id (VNum 1));
                  CCreate "tags" (VArr [VObj [("value", VNum 40)]])];
        pending := [] |}).
Proof.
  apply (createAssociation_batch_not_linked Examples.tagging "Parent" Examples.Parent
           Examples.Tag (VNum 1) "tags" "Tag" [VObj [("value", VNum 40)]] None
           Examples.parent1 [[("value", VNum 40); ("_id", VNum 31)]]
           (coll Examples.tagging_store "tags" ++ [[("value", VNum 40); ("_id", VNum 31)]])
           (quiet Examples.tagging_store));
    [reflexivity | reflexivity | reflexivity | discriminate | reflexivity | reflexivity
    | reflexivity | reflexivity].
Defined.

(** ** updateAssociation on an empty reference *)

(** X13: [updateAssociation] loads the parent with [findOne] whatever
    the shape of [parentId] and whatever the options; when the loaded
    parent's reference field is falsy (absent, null, 0, the empty
    string) it resolves to null after that one read, the child model
    untouched, registered or not. *)
Theorem updateAssociation_falsy_reference (this : Service) (parentModelName : string)
  (Model : ModelHandle) (parentId : Value) (childAttributeName childModelName : string)
  (criteria values : Value) (options : option Options) (record : Doc) (w : World) :
  _getModel this parentModelName = Some Model →
  truthy parentId = true →
  _getReferenceModelName Model childAttributeName = Some childModelName →
  childModelName ≠ "" →
  pending w = [] →
  head (find_docs (by_id parentId) (coll (store w) (collection Model))) = Some record →
  truthy (getField (VObj record) childAttributeName) = false →
  updateAssociation this parentModelName parentId childAttributeName criteria values
    options w
  = (Resolved VNull,
     {| store := store w;
        calls := calls w ++ [CFindOne (collection Model) (by_id parentId)];
        pending := [] |}).
Proof.
  intros HM Hid Hname Hne Hq Hrec Href. unfold updateAssociation.
  rewrite HM, Hid, Hname. cbn [negb].
  destruct childModelName as [| a cn]; [congruence |].
  unfold andThen, find. rewrite HM. cbn [findOne]. rewrite orb_true_r. cbn [on_model].
  rewrite (call_quiet _ _ Hq). cbn -[find_docs getField].
  rewrite Hrec. cbn -[getField]. rewrite Href. reflexivity.
Qed.

Lemma updateAssociation_falsy_reference_witness :
  updateAssociation Examples.blog "Account" (VNum 9) "owner" (VObj [])
    (VObj [("name", VStr "x")]) None (quiet Examples.blog_store)
  = (Resolved VNull,
     {| store := Examples.blog_store;
        calls := [CFindOne "accounts" (by_id (VNum 9))];
        pending := [] |}).
Proof.
  apply (updateAssociation_falsy_reference Examples.blog "Account" Examples.Account
           (VNum 9) "owner" "User" (VObj []) (VObj [("name", VStr "x")]) None
           Examples.account9 (quiet Examples.blog_store));
    [reflexivity | reflexivity | reflexivity | discriminate | reflexivity | reflexivity
    | reflexivity].
Defined.

(** ** findAssociation: the children it returns *)

Lemma matches_lookup (conds : list (string * Value)) (d : Doc) (k : string) (c : Value) :
  matches (VObj conds) d = true → lookup_field k conds = Some c →
  match_cond k c d = true.
Proof.
  unfold matches. induction conds as [| [k' c'] conds IH]; [discriminate |].
  simpl. intros H Hk. apply andb_true_iff in H as [Hc H].
  destruct (bool_decide (k = k')) eqn:E.
  - apply bool_decide_eq_true_1 in E. subst k'. injection Hk as <-. exact Hc.
  - apply IH; assumption.
Qed.

Lemma pretty_N_go_no_underscore (x : N) (s s' : string) :
  s ≠ "_" +:+ s' → pretty_N_go x s ≠ "_" +:+ s'.
Proof.
  revert s. induction (N.lt_wf_0 x) as [x _ IH]; intros s Hs.
  destruct (decide (x = 0%N)) as [-> | Hx]; [rewrite pretty_N_go_0; exact Hs |].
  rewrite pretty_N_go_step by lia. apply IH; [apply N.div_lt; lia |].
  unfold pretty_N_char. repeat case_match; discriminate.
Qed.

(** An index is never the key [_id]. *)
Lemma index_not_id (i : nat) : pretty i ≠ "_id".
Proof.
  unfold pretty, pretty_nat, pretty, pretty_N.
  destruct (decide (N.of_nat i = 0%N)); [discriminate |].
  apply (pretty_N_go_no_underscore _ _ "id"). discriminate.
Qed.

Lemma indexed_no_id {A} (h : A → Value) (l : list A) :
  Forall (λ kv : string * Value, kv.1 ≠ "_id") (imap (λ i x, (pretty i, h x)) l).
Proof.
  apply Forall_forall. intros [k v] Hin.
  apply list_elem_of_lookup in Hin as [i Hi]. rewrite list_lookup_imap in Hi.
  destruct (l !! i); [| discriminate]. injection Hi as <- _. apply index_not_id.
Qed.

Lemma fields_no_id (cfs : list (string * Value)) :
  lookup_field "_id" cfs = None → Forall (λ kv : string * Value, kv.1 ≠ "_id") cfs.
Proof.
  induction cfs as [| [k x] cfs IH]; intros Hno; [constructor |].
  simpl in Hno. destruct (bool_decide ("_id" = k)) eqn:E; [discriminate |].
  apply bool_decide_eq_false_1 in E. constructor; [cbn; congruence | apply IH, Hno].
Qed.

(** Extending a query with criteria that do not name [_id] leaves the
    query's condition on [_id] in place. *)
Lemma extend_keeps_id (base : list (string * Value)) (criteria : Value) :
  (∀ cfs, criteria = VObj cfs → lookup_field "_id" cfs = None) →
  ∃ fs, extend (VObj base) criteria = VObj fs ∧
        lookup_field "_id" fs = lookup_field "_id" base.
Proof.
  intros Hno. unfold extend.
  assert (Forall (λ kv : string * Value, kv.1 ≠ "_id") (enumerable criteria)) as Hkeys.
  { destruct criteria as [| | b | n | str | xs | cfs]; cbn [enumerable];
      try constructor; try apply indexed_no_id.
    apply fields_no_id, Hno. reflexivity. }
  revert base. induction Hkeys as [| [k x] kvs Hk _ IH]; intros base.
  - exists base. split; reflexivity.
  - cbn in Hk |- *. destruct (IH (assign k x base)) as (fs & Hfs & Hid).
    exists fs. split; [exact Hfs |]. rewrite Hid. apply lookup_assign_ne. exact Hk.
Qed.

(** X14: when the caller's criteria do not name [_id], every child
    [findAssociation] returns is one the loaded parent refers to: its
    [_id] is among the ids of the parent's array, or is the parent's
    single reference. *)
Theorem findAssociation_returns_referenced (this : Service) (parentModelName : string)
  (Model childModel : ModelHandle) (parentId : Value)
  (childAttributeName childModelName : string) (criteria : Value)
  (options : option Options) (record : Value) (w w1 : World) :
  _getModel this parentModelName = Some Model →
  truthy parentId = true →
  _getReferenceModelName Model childAttributeName = Some childModelName →
  childModelName ≠ "" →
  app_orm this !! childModelName = Some (Registered childModel) →
  find this "User" parentId (Some (default no_options options)) w = (Resolved record, w1) →
  truthy record = true →
  truthy (getField record childAttributeName) = true →
  pending w1 = [] →
  (∀ cfs, criteria = VObj cfs → lookup_field "_id" cfs = None) →
  ∃ found,
    (findAssociation this parentModelName parentId childAttributeName criteria options w).1
    = Resolved (VArr (VObj <$> found)) ∧
    found `sublist_of` coll (store w1) (collection childModel) ∧
    Forall (λ d, match getField record childAttributeName with
                 | VArr ids => doc_id d ∈ castId <$> ids
                 | reference =>
                     matches (by_id reference) d = true
                 end) found.
Proof.
  intros HM Hid Hname Hne Hchild Hfind Hrec Href Hq Hcrit.
  rewrite (findAssociation_after_preamble this parentModelName parentId
             childAttributeName criteria options Model childModel childModelName)
    by assumption.
  rewrite (andThen_resolved _ _ _ _ _ Hfind), Hrec, Href. cbn [negb].
  set (reference := getField record childAttributeName) in *.
  set (c := if isArray reference then VObj [("$in", reference)] else reference).
  assert ((if isArray reference then id_in reference else by_id reference)
          = VObj [("_id", c)]) as ->.
  { unfold c. destruct (isArray reference); reflexivity. }
  assert (∃ fs, extend (VObj [("_id", c)]) (or_empty criteria) = VObj fs ∧
                lookup_field "_id" fs = Some c) as (fs & -> & Hfs).
  { unfold or_empty. destruct (truthy criteria).
    - apply (extend_keeps_id [("_id", c)] criteria), Hcrit.
    - exists [("_id", c)]. split; reflexivity. }
  assert (_getModel this childModelName = Some childModel) as HC.
  { unfold _getModel. rewrite Hchild. reflexivity. }
  unfold find. rewrite HC. cbn [isPlainObject negb orb default no_options findOne on_model].
  rewrite settle_call, (call_quiet _ _ Hq). cbn -[find_docs limited].
  eexists. split; [reflexivity |]. split; [apply selected_sublist |].
  apply Forall_forall. intros d Hd.
  assert (matches (VObj fs) d = true) as Hm.
  { assert (d ∈ find_docs (VObj fs) (coll (store w1) (collection childModel))) as Hin.
    { revert Hd. unfold limited. destruct (query_limit this None); [| tauto].
      apply (sublist_subseteq _ _ (sublist_take _ _)). }
    apply list_elem_of_filter in Hin as [Hin _]. apply Is_true_true_1, Hin. }
  pose proof (matches_lookup fs d "_id" c Hm Hfs) as Hc. unfold c in Hc.
  destruct reference as [| | b | n | s | ids | rfs]; cbn [isArray] in Hc.
  6: { cbv beta iota. unfold match_cond in Hc. simpl in Hc.
       apply bool_decide_eq_true_1 in Hc. exact Hc. }
  all: cbv beta iota; unfold matches, by_id; cbn [forallb fst snd];
    rewrite andb_true_r; exact Hc.
Qed.

Lemma findAssociation_returns_referenced_witness :
  ∃ found,
    (findAssociation Examples.blog "User" (VNum 3) "friends" (VObj []) None
       (quiet Examples.blog_store)).1
    = Resolved (VArr (VObj <$> found)) ∧
    Forall (λ d, doc_id d ∈ castId <$> [VNum 3]) found.
Proof.
  destruct (findAssociation_returns_referenced Examples.blog "User" Examples.User
              Examples.User (VNum 3) "friends" "User" (VObj []) None
              (VObj Examples.user3) (quiet Examples.blog_store)
              {| store := Examples.blog_store;
                 calls := [CFindOne "users" (by_id (VNum 3))];
                 pending := [] |}
              eq_refl eq_refl eq_refl ltac:(discriminate) eq_refl eq_refl eq_refl
              eq_refl eq_refl ltac:(intros cfs [= <-]; reflexivity))
    as (found & Hres & _ & Hall).
  exists found. split; [exact Hres | exact Hall].
Defined.

(** ** destroyAssociation *)





(** X16: on an array of references, criteria that are not a filter
    object (a bare id, or none at all), or any criteria under
    [findOne: true], are looked up with [findOne({ _id: criteria })].
    When no child has that key the operation resolves to the empty array;
    when one has, the single record it gets has no [map] and the
    operation is rejected with a [TypeError].  Either way nothing is
    destroyed and the parent is not saved. *)
Theorem destroyAssociation_array_single_lookup (this : Service)
  (parentModelName : string) (Model childModel : ModelHandle) (parentId : Value)
  (childAttributeName childModelName : string) (criteria : Value)
  (options : option Options) (record : Doc) (references : list Value) (w w1 : World) :
  _getModel this parentModelName = Some Model →
  truthy parentId = true →
  _getReferenceModelName Model childAttributeName = Some childModelName →
  childModelName ≠ "" →
  _getModel this childModelName = Some childModel →
  find this parentModelName parentId (Some (default no_options options)) w
  = (Resolved (VObj record), w1) →
  pending w1 = [] →
  getField (VObj record) childAttributeName = VArr references →
  negb (isPlainObject criteria) || findOne (default no_options options) = true →
  let C := collection childModel in
  destroyAssociation this parentModelName parentId childAttributeName criteria options w
  = (match head (find_docs (by_id criteria) (coll (store w1) C)) with
     | Some _ => Rejected TypeError
     | None => Resolved (VArr [])
     end,
     {| store := store w1;
        calls := calls w1 ++ [CFindOne C (by_id criteria)];
        pending := [] |}).
Proof.
  intros HM Hid Hname Hne HC Hfind Hq Hrefs Hone. cbv zeta.
  unfold destroyAssociation. rewrite HM, Hid, Hname. cbn [negb].
  destruct childModelName as [| a cn]; [congruence |].
  rewrite (andThen_resolved _ _ _ _ _ Hfind). cbn [truthy negb]. rewrite Hrefs.
  unfold andThen at 1. unfold find at 1. rewrite HC.
  change (default no_options (Some (default no_options options)))
    with (default no_options options).
  rewrite Hone. cbn [on_model]. rewrite (call_quiet _ _ Hq). cbn -[find_docs].
  destruct (head (find_docs (by_id criteria) (coll (store w1) (collection childModel))));
    reflexivity.
Qed.

Lemma destroyAssociation_array_single_lookup_witness :
  destroyAssociation Examples.tagging "Parent" (VNum 1) "tags" VUndefined None
    (quiet Examples.tagging_store)
  = (Resolved (VArr []),
     {| store := Examples.tagging_store;
        calls := [CFindOne "parents" (by_id (VNum 1));
                  CFindOne "tags" (by_id VUndefined)];
        pending := [] |}) ∧
  (destroyAssociation Examples.tagging "Parent" (VNum 1) "tags" (VNum 20) None
     (quiet Examples.tagging_store)).1
  = Rejected TypeError.
Proof.
  split.
  - apply (destroyAssociation_array_single_lookup Examples.tagging "Parent"
             Examples.Parent Examples.Tag (VNum 1) "tags" "Tag" VUndefined None
             Examples.parent1 [VNum 10; VNum 20; VNum 30]
             (quiet Examples.tagging_store)
             {| store := Examples.tagging_store;
                calls := [CFindOne "parents" (by_id (VNum 1))];
                pending := [] |});
      [reflexivity | reflexivity | reflexivity | discriminate | reflexivity
      | reflexivity | reflexivity | reflexivity | reflexivity].
  - reflexivity.
Defined.

Lemma andThen_ext {A B} (p : Promise A) (k k' : A → Promise B) (w : World) :
  (∀ a w1, p w = (Resolved a, w1) → k a w1 = k' a w1) →
  andThen p k w = andThen p k' w.
Proof.
  intros H. unfold andThen. destruct (p w) as [[a | e | e | a] w1]; try reflexivity.
  rewrite (H a w1 eq_refl). reflexivity.
Qed.

(** X17: when the loaded parent's reference field is not an array,
    [destroyAssociation] never looks at the criteria: whatever criteria
    are passed, it does the same calls, to the same result. *)
Theorem destroyAssociation_single_ignores_criteria (this : Service)
  (parentModelName : string) (parentId : Value) (childAttributeName : string)
  (criteria criteria' : Value) (options : option Options) (w : World) :
  (∀ record w1,
      find this parentModelName parentId (Some (default no_options options)) w
      = (Resolved record, w1) →
      isArray (getField record childAttributeName) = false) →
  destroyAssociation this parentModelName parentId childAttributeName criteria options w
  = destroyAssociation this parentModelName parentId childAttributeName criteria' options w.
Proof.
  intros Hsingle. unfold destroyAssociation.
  destruct (_getModel this parentModelName) as [Model |]; [| reflexivity].
  destruct (negb (truthy parentId)); [reflexivity |].
  destruct (_getReferenceModelName Model childAttributeName) as [[| a cn] |];
    try reflexivity.
  apply andThen_ext. intros record w1 Hfind.
  specialize (Hsingle record w1 Hfind).
  destruct (negb (truthy record)); [reflexivity |].
  destruct (getField record childAttributeName); try reflexivity. discriminate Hsingle.
Qed.

Lemma destroyAssociation_single_ignores_criteria_witness :
  destroyAssociation Examples.blog "Account" (VNum 8) "owner" (VObj [("x", VNum 1)]) None
    (quiet Examples.blog_store)
  = destroyAssociation Examples.blog "Account" (VNum 8) "owner" VUndefined None
      (quiet Examples.blog_store).
Proof.
  apply (destroyAssociation_single_ignores_criteria Examples.blog "Account" (VNum 8)
           "owner" (VObj [("x", VNum 1)]) VUndefined None (quiet Examples.blog_store)).
  intros record w1 Hfind. vm_compute in Hfind. injection Hfind as <- _. reflexivity.
Defined.

(** X18: on a single reference holding a scalar id, [destroyAssociation]
    destroys the referenced child by that id ([findOne] then [remove] by
    [{ _id: reference }]), saves the parent with the field set to null,
    and resolves to undefined; after it no document of the child
    collection read at the removal has that id. *)
Theorem destroyAssociation_single (this : Service) (parentModelName : string)
  (Model childModel : ModelHandle) (parentId : Value)
  (childAttributeName childModelName : string) (criteria : Value)
  (options : option Options) (record : Doc) (w w1 : World) :
  _getModel this parentModelName = Some Model →
  truthy parentId = true →
  _getReferenceModelName Model childAttributeName = Some childModelName →
  childModelName ≠ "" →
  _getModel this childModelName = Some childModel →
  find this parentModelName parentId (Some (default no_options options)) w
  = (Resolved (VObj record), w1) →
  pending w1 = [] →
  isArray (getField (VObj record) childAttributeName) = false →
  isPlainObject (getField (VObj record) childAttributeName) = false →
  let reference := getField (VObj record) childAttributeName in
  let P := collection Model in
  let C := collection childModel in
  let cleared := assign childAttributeName VNull record in
  let s2 := <[C := remove_docs (by_id reference) (coll (store w1) C)]> (store w1) in
  destroyAssociation this parentModelName parentId childAttributeName criteria options w
  = (Resolved VUndefined,
     {| store := <[P := replace_doc cleared (coll s2 P)]> s2;
        calls := calls w1 ++ [CFindOne C (by_id reference); CRemove C (by_id reference);
                              CSave P (VObj cleared)];
        pending := [] |}) ∧
  getField (VObj cleared) childAttributeName = VNull ∧
  find_docs (by_id reference) (coll s2 C) = [].
Proof.
  intros HM Hid Hname Hne HC Hfind Hq Harr Hplain. cbv zeta.
  remember (getField (VObj record) childAttributeName) as reference eqn:Eref in *.
  split; [| split].
  - unfold destroyAssociation. rewrite HM, Hid, Hname. cbn -[find destroy call].
    destruct childModelName as [| a cn]; [congruence |].
    rewrite (andThen_resolved _ _ _ _ _ Hfind). cbn -[find destroy call getField].
    rewrite <- Eref. clear Eref.
    pose proof (destroy_scalar this _ childModel reference
                  (Some (default no_options options)) w1 HC Hplain Hq) as Hdestroy.
    cbv zeta in Hdestroy.
    destruct reference; try discriminate Harr; try discriminate Hplain;
      unfold andThen at 1; rewrite Hdestroy;
      unfold andThen, save; rewrite call_eq; cbn -[replace_doc remove_docs];
      rewrite <- app_assoc; reflexivity.
  - simpl. rewrite lookup_assign_eq. reflexivity.
  - rewrite coll_insert. apply find_after_remove.
Qed.

Lemma destroyAssociation_single_witness :
  ∃ w', destroyAssociation Examples.blog "Account" (VNum 8) "owner" (VObj []) None
          (quiet Examples.blog_store) = (Resolved VUndefined, w') ∧
        coll (store w') "users" = [Examples.user3] ∧
        coll (store w') "accounts"
        = [Examples.account9; [("_id", VNum 8); ("owner", VNull)]].
Proof.
  eexists. split; [| split].
  - apply (destroyAssociation_single Examples.blog "Account" Examples.Account
             Examples.User (VNum 8) "owner" "User" (VObj []) None Examples.account8
             (quiet Examples.blog_store)
             {| store := Examples.blog_store;
                calls := [CFindOne "accounts" (by_id (VNum 8))];
                pending := [] |});
      [reflexivity | reflexivity | reflexivity | discriminate | reflexivity
      | reflexivity | reflexivity | reflexivity | reflexivity].
  - reflexivity.
  - reflexivity.
Defined.

(** ** What the options reach *)

(** X19: [updateAssociation] makes no use of the caller's options: the
    parent is loaded with [findOne], which takes no limit, and the child
    update is called without options, so whatever options are passed the
    calls and the result are the same.  [findAssociation] on a scalar
    [parentId] is as indifferent to them: its child query goes out
    without options too. *)
Theorem association_options_unused (this : Service) (parentModelName : string)
  (parentId : Value) (childAttributeName : string) (criteria values : Value)
  (options options' : option Options) (w : World) :
  updateAssociation this parentModelName parentId childAttributeName criteria values
    options w
  = updateAssociation this parentModelName parentId childAttributeName criteria values
      options' w ∧
  (isPlainObject parentId = false →
   findAssociation this parentModelName parentId childAttributeName criteria options w
   = findAssociation this parentModelName parentId childAttributeName criteria options' w).
Proof.
  split.
  - unfold updateAssociation.
    destruct (_getModel this parentModelName) as [Model |] eqn:HM; [| reflexivity].
    destruct (negb (truthy parentId)); [reflexivity |].
    destruct (_getReferenceModelName Model childAttributeName) as [[| a cn] |];
      try reflexivity.
    unfold find. rewrite HM. cbn [findOne]. rewrite !orb_true_r. reflexivity.
  - intros Hplain. unfold findAssociation.
    destruct (_getModel this parentModelName) as [Model |]; [| reflexivity].
    destruct (negb (truthy parentId)); [reflexivity |].
    destruct (_getReferenceModelName Model childAttributeName) as [[| a cn] |];
      try reflexivity.
    destruct (app_orm this !! String a cn); [| reflexivity].
    unfold find at 1 3. destruct (_getModel this "User"); [| reflexivity].
    rewrite Hplain. reflexivity.
Qed.

Lemma association_options_unused_witness :
  findAssociation Examples.blog "User" (VNum 3) "friends" (VObj [])
    (Some {| findOne := false; defaultLimit := Some 1 |}) (quiet Examples.blog_store)
  = findAssociation Examples.blog "User" (VNum 3) "friends" (VObj []) None
      (quiet Examples.blog_store).
Proof.
  apply (association_options_unused Examples.blog "User" (VNum 3) "friends" (VObj [])
           VNull (Some {| findOne := false; defaultLimit := Some 1 |}) None
           (quiet Examples.blog_store)).
  reflexivity.
Defined.
